(** * Emailing service: a shallow embedding of [config.py], [sending_email.py]
      and [app.py], and the properties of its specification.

    The service is a thin orchestration layer over three collaborators that
    live outside the repository: the SMTP library ([smtplib]), the template
    engine ([jinja2]) and the operating system's entropy source behind
    [secrets].  They are taken as an environment [Env] of oracles; everything
    the repository's own code does with them is written out.

    Conventions of the model:
    - a Python [str] is a Rocq [string]: its UTF-8 bytes, a lone surrogate
      (a JSON body can carry one, as in ["\ud800"]) being written as the
      three bytes UTF-8 would give it ([0xED 0xA0 0x80] for U+D800);
    - values decoded from a JSON body are [pyval]; JSON numbers are integers;
    - an effectful Python function is a function in the monad [M]: it takes
      the world (standard output, the conversation with the SMTP endpoint,
      the position in the entropy stream) and returns either the raised
      exception or a value, together with the new world;
    - whether a text can be encoded (by standard output when a line is
      printed, by the email package when a part is built) is the
      environment's answer; a line made of a literal and the text of an
      exception is one standard output writes;
    - leaving a [with smtplib.SMTP_SSL(...)] block sends QUIT, which can
      raise like any other call into the SMTP library;
    - an exception is an instance of [Exception]; [str(e)] is [exn_str e]. *)

From Stdlib Require Import String Ascii List ZArith NArith Bool Lia.
From Stdlib.Strings Require Import Byte.
From Stdlib Require Import DecimalString.
Import ListNotations.

Local Open Scope string_scope.
Local Open Scope list_scope.

#[local] Set Warnings "-register-all".

(* ===================================================================== *)
(** * Python values                                                       *)
(* ===================================================================== *)

Module Py.

(** What [request.json] can hold, and what the handlers pass around. *)
Inductive pyval : Type :=
| PNone
| PBool (b : bool)
| PInt (n : Z)
| PStr (s : string)
| PList (l : list pyval)
| PDict (d : list (string * pyval)).

(** [type(v).__name__] *)
Definition type_name (v : pyval) : string :=
  match v with
  | PNone => "NoneType"
  | PBool _ => "bool"
  | PInt _ => "int"
  | PStr _ => "str"
  | PList _ => "list"
  | PDict _ => "dict"
  end.

(** [bool(v)]: the test made by [if v], [not v], [and], [or]. *)
Definition truthy (v : pyval) : bool :=
  match v with
  | PNone => false
  | PBool b => b
  | PInt n => negb (Z.eqb n 0)
  | PStr s => negb (String.eqb s "")
  | PList l => match l with [] => false | _ :: _ => true end
  | PDict d => match d with [] => false | _ :: _ => true end
  end.

(** [a and b] and [a or b] return one of their operands. *)
Definition py_and (a b : pyval) : pyval := if truthy a then b else a.
Definition py_or (a b : pyval) : pyval := if truthy a then a else b.

(** An exception object: its class and what [str(e)] gives. *)
Record exn : Type := Raise { exn_class : string; exn_str : string }.

Definition result (A : Type) : Type := (exn + A)%type.

Definition AttributeError (v : pyval) (attr : string) : exn :=
  Raise "AttributeError"
        ("'" ++ type_name v ++ "' object has no attribute '" ++ attr ++ "'").

Definition TypeError_not_iterable (v : pyval) : exn :=
  Raise "TypeError" ("'" ++ type_name v ++ "' object is not iterable").

(** [d.get(key, default)] on a dict; first binding of a key is the live one. *)
Fixpoint dict_get (d : list (string * pyval)) (key : string) (default : pyval)
  : pyval :=
  match d with
  | [] => default
  | (k, v) :: d' => if String.eqb k key then v else dict_get d' key default
  end.

(** [data.get(key, default)] on any value: only a dict has [get]. *)
Definition py_get (data : pyval) (key : string) (default : pyval)
  : result pyval :=
  match data with
  | PDict d => inr (dict_get d key default)
  | _ => inl (AttributeError data "get")
  end.

(** The builtin [all(v)]: iterates a str (its characters, each a non-empty
    str), a list (its elements) or a dict (its keys); anything else is not
    iterable. *)
Definition py_all (v : pyval) : result bool :=
  match v with
  | PStr _ => inr true
  | PList l => inr (forallb truthy l)
  | PDict d => inr (forallb (fun kv => truthy (PStr (fst kv))) d)
  | _ => inl (TypeError_not_iterable v)
  end.

(** [s.encode('us-ascii')] succeeds: every byte of the UTF-8 form is below 128. *)
Fixpoint is_ascii (s : string) : bool :=
  match s with
  | EmptyString => true
  | String c s' => (nat_of_ascii c <? 128)%nat && is_ascii s'
  end.

End Py.
Import Py.

(* ===================================================================== *)
(** * MIME messages ([email.mime])                                        *)
(* ===================================================================== *)

Module Mime.

(** [MIMEText(_text, _subtype)]: a leaf part of main type [text]. *)
Record MIMEText : Type := mkMIMEText {
  text_subtype : string;
  text_charset : string;
  text_payload : string
}.

(** A [MIMEMultipart] object: its headers in the order they were set (the
    legacy policy stores any value as given and checks nothing at
    assignment), and the attached parts in the order of [attach]. *)
Record MIMEMultipart : Type := mkMIMEMultipart {
  multipart_subtype : string;
  headers : list (string * pyval);
  payload : list MIMEText
}.

(** [MIMEMultipart(_subtype)]: the constructor sets the content type and
    the MIME version. *)
Definition new_MIMEMultipart (subtype : string) : MIMEMultipart :=
  mkMIMEMultipart subtype
    [("Content-Type", PStr ("multipart/" ++ subtype));
     ("MIME-Version", PStr "1.0")]
    [].

(** [msg[name] = value] appends a header. *)
Definition set_header (msg : MIMEMultipart) (name : string) (value : pyval)
  : MIMEMultipart :=
  mkMIMEMultipart (multipart_subtype msg)
                  (headers msg ++ [(name, value)])
                  (payload msg).

(** [msg[name]]: the first header of that name. *)
Fixpoint lookup_header (hs : list (string * pyval)) (name : string)
  : option pyval :=
  match hs with
  | [] => None
  | (k, v) :: hs' => if String.eqb k name then Some v else lookup_header hs' name
  end.

Definition get_header (msg : MIMEMultipart) (name : string) : option pyval :=
  lookup_header (headers msg) name.

(** [msg.attach(part)] *)
Definition attach (msg : MIMEMultipart) (part : MIMEText) : MIMEMultipart :=
  mkMIMEMultipart (multipart_subtype msg) (headers msg) (payload msg ++ [part]).

(** The constructor calls [_text.encode('us-ascii')] to choose the charset:
    a value that is not a str has no [encode].  A text that is not ASCII is
    then encoded as UTF-8 by [set_payload]; [encode_error] is what that
    raises, [None] when the text encodes (a str holding a lone surrogate does
    not). *)
Definition new_MIMEText (encode_error : string -> option exn)
           (text : pyval) (subtype : string) : result MIMEText :=
  match text with
  | PStr s =>
      if is_ascii s then inr (mkMIMEText subtype "us-ascii" s)
      else
        match encode_error s with
        | Some e => inl e
        | None => inr (mkMIMEText subtype "utf-8" s)
        end
  | _ => inl (AttributeError text "encode")
  end.

End Mime.
Import Mime.

(* ===================================================================== *)
(** * The environment and the world                                       *)
(* ===================================================================== *)

(** What the SMTP endpoint has seen, in order. *)
Inductive smtp_event : Type :=
| EvConnect (host : string) (port : Z)
| EvLogin (user password : pyval)
| EvSendMessage (msg : MIMEMultipart)
| EvQuit.

(** A [jinja2] template: [render] applied to its keyword arguments. *)
Definition Template : Type := list (string * pyval) -> result string.

Record Env : Type := mkEnv {
  (** [smtplib.SMTP_SSL(host, port)], [server.login], [server.send_message]:
      [None] when the call returns, [Some e] when it raises [e].  The endpoint
      may answer from everything it has seen so far. *)
  smtp_connect : list smtp_event -> string -> Z -> option exn;
  smtp_login : list smtp_event -> pyval -> pyval -> option exn;
  smtp_send_message : list smtp_event -> MIMEMultipart -> option exn;
  (** [jinja_env.get_template(name)] over the service's template directory. *)
  get_template : string -> result Template;
  (** The bytes the operating system hands out, as one stream. *)
  os_entropy : nat -> byte;
  (** [repr(v)], which is what [str(v)] is for a value that is not a str. *)
  py_repr : pyval -> string;
  (** The QUIT that [SMTP.__exit__] sends on the way out of a [with] block:
      [Some e] when the reply is not 221 (or the call fails otherwise),
      [None] when the session closes, also when the server had gone. *)
  smtp_quit : list smtp_event -> option exn;
  (** What [sys.stdout] raises when asked to write a line, [None] when it
      writes it: the [UnicodeEncodeError] of its encoder. *)
  stdout_encode_error : string -> option exn;
  (** What the email package raises when it encodes a text that is not ASCII
      as UTF-8, [None] when it encodes it. *)
  text_encode_error : string -> option exn;
  (** What [smtplib] puts on the wire for a message: [send_message] flattens
      a copy of it, and the generator first settles on a multipart boundary,
      drawn with [random.randrange], then writes the copy with it.
      [multipart_boundary] is the boundary chosen at a point of the
      conversation, [flatten] the bytes written for a boundary and a
      message. *)
  multipart_boundary : list smtp_event -> MIMEMultipart -> string;
  flatten : string -> MIMEMultipart -> result string
}.

Record world : Type := mkWorld {
  stdout : list string;
  smtp_log : list smtp_event;
  entropy_used : nat
}.

(** ** The monad of effectful Python code *)

Definition M (A : Type) : Type := world -> result A * world.

Definition ret {A} (a : A) : M A := fun w => (inr a, w).

Definition raise {A} (e : exn) : M A := fun w => (inl e, w).

Definition bind {A B} (m : M A) (k : A -> M B) : M B :=
  fun w =>
    match m w with
    | (inl e, w') => (inl e, w')
    | (inr a, w') => k a w'
    end.

(** [try: body / except Exception as e: handler(e)] *)
Definition try_except {A} (body : M A) (handler : exn -> M A) : M A :=
  fun w =>
    match body w with
    | (inl e, w') => handler e w'
    | (inr a, w') => (inr a, w')
    end.

Definition lift {A} (r : result A) : M A := fun w => (r, w).

Declare Scope py_scope.
Delimit Scope py_scope with py.
Notation "x <- m ;; k" := (bind m (fun x => k))
  (at level 61, m at next level, right associativity) : py_scope.
Notation "m ;;; k" := (bind m (fun _ => k))
  (at level 61, right associativity) : py_scope.
Local Open Scope py_scope.

(** [print(line)] for a line made of a literal and the text of an
    exception, which standard output writes. *)
Definition print (line : string) : M unit :=
  fun w => (inr tt, mkWorld (stdout w ++ [line]) (smtp_log w) (entropy_used w)).

(** [print(line)] for a line that embeds a value of the request: standard
    output may be unable to encode it; then [print] raises and nothing is
    written. *)
Definition print_formatted (E : Env) (line : string) : M unit :=
  fun w =>
    match stdout_encode_error E line with
    | Some e => (inl e, w)
    | None => print line w
    end.

Definition log_event (ev : smtp_event) (w : world) : world :=
  mkWorld (stdout w) (smtp_log w ++ [ev]) (entropy_used w).

(** One call into the SMTP library: the endpoint sees the call, then answers. *)
Definition smtp_call (ev : smtp_event) (answer : list smtp_event -> option exn)
  : M unit :=
  fun w =>
    match answer (smtp_log w) with
    | Some e => (inl e, log_event ev w)
    | None => (inr tt, log_event ev w)
    end.

(* ===================================================================== *)
(** * [base64] and [secrets] (Python's standard library)                  *)
(* ===================================================================== *)

Module Base64.

Definition std_alphabet : string :=
  "ABCDEFGHIJKLMNOPQRSTUVWXYZabcdefghijklmnopqrstuvwxyz0123456789+/".

Definition pad : ascii := "="%char.

(** The character of a six-bit group. *)
Definition b64char (i : N) : ascii :=
  match String.get (N.to_nat i) std_alphabet with
  | Some c => c
  | None => pad
  end.

(** The four six-bit groups of three bytes [a], [b], [c], most significant
    bits first. *)
Definition sextet1 (a : N) : N := (a / 4)%N.
Definition sextet2 (a b : N) : N := ((a mod 4) * 16 + b / 16)%N.
Definition sextet3 (b c : N) : N := ((b mod 16) * 4 + c / 64)%N.
Definition sextet4 (c : N) : N := (c mod 64)%N.

(** [base64.b64encode]: three bytes give four characters; a rest of one or
    two bytes is filled with zero bits to a whole number of groups and padded
    with [=] to four characters. *)
Fixpoint b64encode (bs : list byte) : string :=
  match bs with
  | [] => ""
  | [a] =>
      let a := Byte.to_N a in
      String (b64char (sextet1 a))
        (String (b64char (sextet2 a 0))
           (String pad (String pad "")))
  | [a; b] =>
      let a := Byte.to_N a in
      let b := Byte.to_N b in
      String (b64char (sextet1 a))
        (String (b64char (sextet2 a b))
           (String (b64char (sextet3 b 0))
              (String pad "")))
  | a :: b :: c :: rest =>
      let a := Byte.to_N a in
      let b := Byte.to_N b in
      let c := Byte.to_N c in
      String (b64char (sextet1 a))
        (String (b64char (sextet2 a b))
           (String (b64char (sextet3 b c))
              (String (b64char (sextet4 c))
                 (b64encode rest))))
  end.

(** [bytes.translate] with the table that sends [+] to [-] and [/] to [_]. *)
Definition urlsafe_translation (c : ascii) : ascii :=
  if Ascii.eqb c "+" then "-"%char
  else if Ascii.eqb c "/" then "_"%char
  else c.

Fixpoint translate (table : ascii -> ascii) (s : string) : string :=
  match s with
  | EmptyString => EmptyString
  | String c s' => String (table c) (translate table s')
  end.

Definition urlsafe_b64encode (bs : list byte) : string :=
  translate urlsafe_translation (b64encode bs).

(** The character [urlsafe_b64encode] writes for a six-bit group. *)
Definition urlsafe_char (i : N) : ascii := urlsafe_translation (b64char i).

(** [s.rstrip(c)]: drop the trailing run of [c]. *)
Fixpoint rstrip (c : ascii) (s : string) : string :=
  match s with
  | EmptyString => EmptyString
  | String a s' =>
      match rstrip c s' with
      | EmptyString => if Ascii.eqb a c then EmptyString else String a EmptyString
      | r => String a r
      end
  end.

(** A character that a URL query parameter carries unescaped: an
    unreserved character of RFC 3986 (letter, digit, [-], [.], [_], [~]). *)
Definition url_unreserved (c : ascii) : bool :=
  let n := nat_of_ascii c in
  ((65 <=? n) && (n <=? 90) || (97 <=? n) && (n <=? 122)
   || (48 <=? n) && (n <=? 57)
   || (n =? 45) || (n =? 46) || (n =? 95) || (n =? 126))%nat.

Fixpoint string_forallb (p : ascii -> bool) (s : string) : bool :=
  match s with
  | EmptyString => true
  | String c s' => p c && string_forallb p s'
  end.

(** The position of a character in the URL-safe alphabet: the table a
    decoder reads the six-bit groups back from. *)
Fixpoint index_of (c : ascii) (s : string) : nat :=
  match s with
  | EmptyString => 0
  | String a s' => if Ascii.eqb a c then 0 else S (index_of c s')
  end.

Definition urlsafe_index (c : ascii) : N :=
  N.of_nat (index_of c (translate urlsafe_translation std_alphabet)).

End Base64.
Import Base64.

Module Secrets.

(** [base64.urlsafe_b64encode(tok).rstrip(b'=').decode('ascii')] *)
Definition encode_token (tok : list byte) : string :=
  rstrip pad (urlsafe_b64encode tok).

Section WithEnv.
Variable E : Env.

(** [secrets.token_bytes(nbytes)]: the next [nbytes] bytes of the system's
    entropy. *)
Definition token_bytes (nbytes : nat) : M (list byte) :=
  fun w =>
    (inr (map (os_entropy E) (seq (entropy_used w) nbytes)),
     mkWorld (stdout w) (smtp_log w) (entropy_used w + nbytes)).

(** [secrets.token_urlsafe(nbytes)] *)
Definition token_urlsafe (nbytes : nat) : M string :=
  tok <- token_bytes nbytes ;;
  ret (encode_token tok).

End WithEnv.
End Secrets.

(* ===================================================================== *)
(** * [config.py]                                                         *)
(* ===================================================================== *)

(** The class attributes of [Config], read once from the process
    environment when the module is imported.  [os.environ.get(name)] without
    a default is [None] when the variable is not set. *)
Record Config : Type := mkConfig {
  MAIL_SERVER : string;
  MAIL_PORT : Z;
  ADMIN_EMAIL : option string;
  ADMIN_PASSWORD : option string;
  PASSWORD_RESET_URL_BASE : string
}.

Definition of_environ (o : option string) : pyval :=
  match o with
  | Some s => PStr s
  | None => PNone
  end.

(* ===================================================================== *)
(** * [sending_email.py]                                                  *)
(* ===================================================================== *)

Definition nl : string := String (ascii_of_nat 10) EmptyString.

(** The indentation the f-string literals carry on every line. *)
Definition indent : string := "        ".

(** The attributes of an [EmailService] object; its [jinja_env] is the
    environment's [get_template]. *)
Record EmailService : Type := mkEmailService {
  smtp_server : string;
  smtp_port : Z;
  admin_email : pyval;
  admin_password : pyval
}.

(** [EmailService.__init__] *)
Definition EmailService_init (cfg : Config) : EmailService :=
  mkEmailService (MAIL_SERVER cfg) (MAIL_PORT cfg)
                 (of_environ (ADMIN_EMAIL cfg))
                 (of_environ (ADMIN_PASSWORD cfg)).

Section SendingEmail.
Variable E : Env.
Variable self : EmailService.

(** [str(v)] as an f-string field formats it. *)
Definition py_str (v : pyval) : string :=
  match v with
  | PStr s => s
  | _ => py_repr E v
  end.

(** [with smtplib.SMTP_SSL(host, port) as server: body].  When the
    constructor raises, the block is not entered; otherwise [__exit__] sends
    QUIT on the way out, whether the body raised or not.  When QUIT raises,
    that exception leaves the block, in place of the body's if it had
    raised; otherwise the body's outcome stands. *)
Definition with_SMTP_SSL {A} (host : string) (port : Z) (body : M A) : M A :=
  fun w =>
    match smtp_call (EvConnect host port)
                    (fun log => smtp_connect E log host port) w with
    | (inl e, w1) => (inl e, w1)
    | (inr _, w1) =>
        let (r, w2) := body w1 in
        match smtp_call EvQuit (smtp_quit E) w2 with
        | (inl e, w3) => (inl e, w3)
        | (inr _, w3) => (r, w3)
        end
    end.

Definition server_login (user password : pyval) : M unit :=
  smtp_call (EvLogin user password)
            (fun log => smtp_login E log user password).

Definition server_send_message (msg : MIMEMultipart) : M unit :=
  smtp_call (EvSendMessage msg)
            (fun log => smtp_send_message E log msg).

(** Lines 92 to 104 of [send_email]: the message object, before any
    network call. *)
Definition compose_message (to_email subject html_content text_content : pyval)
  : result MIMEMultipart :=
  let msg := new_MIMEMultipart "alternative" in
  let msg := set_header msg "Subject" subject in
  let msg := set_header msg "From" (admin_email self) in
  let msg := set_header msg "To" to_email in
  match
    (if truthy text_content then
       match new_MIMEText (text_encode_error E) text_content "plain" with
       | inl e => inl e
       | inr text_part => inr (attach msg text_part)
       end
     else inr msg)
  with
  | inl e => inl e
  | inr msg =>
      match new_MIMEText (text_encode_error E) html_content "html" with
      | inl e => inl e
      | inr html_part => inr (attach msg html_part)
      end
  end.

(** The two lines [send_email] prints. *)
Definition sent_line (to_email : pyval) : string :=
  "Email sent successfully to " ++ py_str to_email.

Definition error_line (to_email : pyval) (e : exn) : string :=
  "Error sending email to " ++ py_str to_email ++ ": " ++ exn_str e.

(** [EmailService.send_email] *)
Definition send_email (to_email subject html_content text_content : pyval)
  : M bool :=
  try_except
    (msg <- lift (compose_message to_email subject html_content text_content) ;;
     with_SMTP_SSL (smtp_server self) (smtp_port self)
       (server_login (admin_email self) (admin_password self) ;;;
        server_send_message msg) ;;;
     print_formatted E (sent_line to_email) ;;;
     ret true)
    (fun e =>
       print_formatted E (error_line to_email e) ;;;
       ret false).

(** [template = self.jinja_env.get_template(name)] followed by
    [template.render(...)]. *)
Definition render_template (name : string) (context : list (string * pyval))
  : M string :=
  template <- lift (get_template E name) ;;
  lift (template context).

Definition password_reset_subject : string :=
  "Password Reset - Computer Networks Program".

Definition password_reset_context (display_name username reset_url : pyval)
  : list (string * pyval) :=
  [("user_name", display_name); ("username", username);
   ("reset_url", reset_url); ("expiration_minutes", PInt 60)].

Definition password_reset_text (display_name reset_url : pyval) : string :=
  nl ++
  indent ++ "Hello " ++ py_str display_name ++ "," ++ nl ++
  indent ++ nl ++
  indent ++ "You requested a password reset for your Computer Networks program account." ++ nl ++
  indent ++ nl ++
  indent ++ "Please visit this link to reset your password:" ++ nl ++
  indent ++ py_str reset_url ++ nl ++
  indent ++ nl ++
  indent ++ "This link will expire in 60 minutes for security purposes." ++ nl ++
  indent ++ nl ++
  indent ++ "If you didn't request this password reset, you can safely ignore this email." ++ nl ++
  indent ++ nl ++
  indent ++ "- Computer Networks Program Team" ++ nl ++
  indent.

(** [EmailService.send_password_reset_email] *)
Definition send_password_reset_email
           (to_email username reset_url user_name : pyval) : M bool :=
  let display_name := py_or user_name username in
  let subject := password_reset_subject in
  html_content <- render_template "password_reset.html"
                    (password_reset_context display_name username reset_url) ;;
  let text_content := password_reset_text display_name reset_url in
  send_email to_email (PStr subject) (PStr html_content) (PStr text_content).

Definition password_reset_success_subject : string :=
  "Password Reset Successful - Computer Networks Program".

Definition password_reset_success_text (username : pyval) : string :=
  nl ++
  indent ++ "Hello " ++ py_str username ++ "," ++ nl ++
  indent ++ nl ++
  indent ++ "Your password has been successfully reset for the Computer Networks program." ++ nl ++
  indent ++ nl ++
  indent ++ "If you did not make this change, please contact support immediately." ++ nl ++
  indent ++ nl ++
  indent ++ "- Computer Networks Program Team" ++ nl ++
  indent.

(** [EmailService.send_password_reset_success_email] *)
Definition send_password_reset_success_email (to_email username : pyval)
  : M bool :=
  let subject := password_reset_success_subject in
  html_content <- render_template "password_reset_success.html"
                    [("username", username)] ;;
  let text_content := password_reset_success_text username in
  send_email to_email (PStr subject) (PStr html_content) (PStr text_content).

End SendingEmail.

(* ===================================================================== *)
(** * [app.py]                                                            *)
(* ===================================================================== *)

(** What a view function returns: the dict given to [jsonify] and the HTTP
    status. *)
Definition response : Type := (list (string * pyval) * Z)%type.

Definition body (r : response) : list (string * pyval) := fst r.
Definition status (r : response) : Z := snd r.

(** The URL rules registered with [app.route]. *)
Inductive route : Type :=
| POST_send_password_reset
| POST_send_reset_success
| GET_health
| POST_send_custom_email
| POST_test.

Section App.
Variable E : Env.
Variable cfg : Config.

(** The module-level instance of [sending_email.py]. *)
Definition email_service : EmailService := EmailService_init cfg.

(** [generate_reset_token] *)
Definition generate_reset_token : M string :=
  Secrets.token_urlsafe E 32.

(** [send_password_reset]; [data] is [request.json]. *)
Definition send_password_reset (data : pyval) : M response :=
  try_except
    (email <- lift (py_get data "email" PNone) ;;
     username <- lift (py_get data "username" PNone) ;;
     user_name <- lift (py_get data "user_name" PNone) ;;
     if negb (truthy email) || negb (truthy username) then
       ret ([("error", PStr "email and username are required")], 400%Z)
     else
       reset_token <- generate_reset_token ;;
       let reset_url :=
         (PASSWORD_RESET_URL_BASE cfg ++ "?token=" ++ reset_token
            ++ "&username=" ++ py_str E username)%string in
       success <- send_password_reset_email E email_service
                    email username (PStr reset_url) user_name ;;
       if success then
         ret ([("status", PStr "sent");
               ("message", PStr "Password reset email sent successfully");
               ("token", PStr reset_token)], 200%Z)
       else
         ret ([("error", PStr "Failed to send email")], 500%Z))
    (fun e =>
       print ("Error in password reset endpoint: " ++ exn_str e) ;;;
       ret ([("error", PStr (exn_str e))], 500%Z)).

(** [send_reset_success] *)
Definition send_reset_success (data : pyval) : M response :=
  try_except
    (email <- lift (py_get data "email" PNone) ;;
     username <- lift (py_get data "username" PNone) ;;
     if negb (truthy email) || negb (truthy username) then
       ret ([("error", PStr "email and username are required")], 400%Z)
     else
       success <- send_password_reset_success_email E email_service
                    email username ;;
       if success then
         ret ([("status", PStr "sent");
               ("message", PStr "Success email sent")], 200%Z)
       else
         ret ([("error", PStr "Failed to send success email")], 500%Z))
    (fun e =>
       print ("Error in success email endpoint: " ++ exn_str e) ;;;
       ret ([("error", PStr (exn_str e))], 500%Z)).

(** [health_check] *)
Definition health_check : M response :=
  ret ([("status", PStr "healthy"); ("service", PStr "email-service")], 200%Z).

(** [send_custom_email].  The test is
    [not all(to_email and subject and html_content)]: [all] is applied to
    the one value the [and] chain returns. *)
Definition send_custom_email (data : pyval) : M response :=
  try_except
    (to_email <- lift (py_get data "to_email" PNone) ;;
     subject <- lift (py_get data "subject" PNone) ;;
     html_content <- lift (py_get data "html_content" PNone) ;;
     complete <- lift (py_all (py_and (py_and to_email subject) html_content)) ;;
     if negb complete then
       ret ([("error", PStr "to_email, subject, and html_content are required")],
            400%Z)
     else
       success <- send_email E email_service to_email subject html_content PNone ;;
       if success then
         ret ([("status", PStr "sent");
               ("message", PStr "Email sent successfully")], 200%Z)
       else
         ret ([("error", PStr "Failed to send email")], 500%Z))
    (fun e => ret ([("error", PStr (exn_str e))], 500%Z)).

(** [test_email] *)
Definition test_email (data : pyval) : M response :=
  try_except
    (test_email <- lift (py_get data "email" (PStr "test@example.com")) ;;
     success <- send_email E email_service
                  test_email
                  (PStr "Test Email - Computer Networks Program")
                  (PStr "<h1>Test Email</h1><p>This is a test email from the email service.</p>")
                  (PStr ("Test Email" ++ nl ++ nl
                         ++ "This is a test email from the email service.")) ;;
     if success then
       ret ([("status", PStr "sent"); ("message", PStr "Test email sent")], 200%Z)
     else
       ret ([("error", PStr "Failed to send test email")], 500%Z))
    (fun e => ret ([("error", PStr (exn_str e))], 500%Z)).

(** The dispatch Flask performs on the registered rules. *)
Definition dispatch (r : route) (data : pyval) : M response :=
  match r with
  | POST_send_password_reset => send_password_reset data
  | POST_send_reset_success => send_reset_success data
  | GET_health => health_check
  | POST_send_custom_email => send_custom_email data
  | POST_test => test_email data
  end.

End App.

(** ** Observations on a run *)

(** The messages given to [server.send_message], oldest first. *)
Fixpoint sent_messages (log : list smtp_event) : list MIMEMultipart :=
  match log with
  | [] => []
  | EvSendMessage msg :: log' => msg :: sent_messages log'
  | _ :: log' => sent_messages log'
  end.

(** The messages given to [server.send_message] between two worlds of one
    run. *)
Definition new_sends (w w' : world) : list MIMEMultipart :=
  skipn (length (sent_messages (smtp_log w))) (sent_messages (smtp_log w')).

(** [sends_only P m]: whatever the world, running [m] only appends to the
    conversation with the SMTP endpoint, and every message it hands over
    satisfies [P]. *)
Definition sends_only (P : MIMEMultipart -> Prop) {A} (m : M A) : Prop :=
  forall w, exists l,
    smtp_log (snd (m w)) = smtp_log w ++ l /\ Forall P (sent_messages l).

(** A message whose headers are the two the constructor sets, [Subject],
    one [From] holding the configured [ADMIN_EMAIL], and [To]. *)
Definition from_admin (cfg : Config) (m : MIMEMultipart) : Prop :=
  exists subject to_email,
    headers m =
    [("Content-Type", PStr "multipart/alternative");
     ("MIME-Version", PStr "1.0");
     ("Subject", subject); ("From", of_environ (ADMIN_EMAIL cfg));
     ("To", to_email)].

(** ** A small environment to run the model on *)

Module Demo.

Definition TemplateNotFound (name : string) : exn :=
  Raise "TemplateNotFound" name.

(** Both templates present; each renders the greeting name and the link. *)
Definition templates (name : string) : result Template :=
  if String.eqb name "password_reset.html" then
    inr (fun ctx =>
           inr ("<p>Hello "
                ++ match dict_get ctx "user_name" PNone with PStr s => s | _ => "" end
                ++ "</p><a href='"
                ++ match dict_get ctx "reset_url" PNone with PStr s => s | _ => "" end
                ++ "'>Reset</a>")%string)
  else if String.eqb name "password_reset_success.html" then
    inr (fun ctx =>
           inr ("<p>Done, "
                ++ match dict_get ctx "username" PNone with PStr s => s | _ => "" end
                ++ "</p>")%string)
  else inl (TemplateNotFound name).

(** No template directory at all. *)
Definition no_templates (name : string) : result Template :=
  inl (TemplateNotFound name).

Definition simple_repr (v : pyval) : string :=
  match v with
  | PNone => "None"
  | PBool true => "True"
  | PBool false => "False"
  | _ => ("<" ++ type_name v ++ ">")%string
  end.

(** *** A strict UTF-8 encoder

    What [str.encode('utf-8')] raises: nothing, unless the str holds a lone
    surrogate; then the [UnicodeEncodeError] that names the first one, or the
    first run of them, by its position counted in characters. *)

Definition is_continuation (c : ascii) : bool :=
  ((128 <=? nat_of_ascii c) && (nat_of_ascii c <=? 191))%nat.

(** [a], [b] start the three bytes of a surrogate: [0xED], then [0xA0] to
    [0xBF]. *)
Definition starts_surrogate (a b : ascii) : bool :=
  ((nat_of_ascii a =? 237) && (160 <=? nat_of_ascii b)
   && (nat_of_ascii b <=? 191))%nat.

(** How many surrogates stand at the head of [s]. *)
Fixpoint surrogate_run (s : string) : nat :=
  match s with
  | String a (String b (String c rest)) =>
      if starts_surrogate a b then S (surrogate_run rest) else 0
  | _ => 0
  end.

(** The first surrogate of [s]: the characters before it (given [pos]
    before [s]), its second and third byte, and the length of its run. *)
Fixpoint find_surrogate (s : string) (pos : nat)
  : option (nat * ascii * ascii * nat) :=
  match s with
  | EmptyString => None
  | String a s' =>
      let next := if is_continuation a then pos else S pos in
      match s' with
      | String b (String c _) =>
          if starts_surrogate a b then Some (pos, b, c, surrogate_run s)
          else find_surrogate s' next
      | _ => find_surrogate s' next
      end
  end.

Definition decimal (n : nat) : string :=
  NilEmpty.string_of_uint (Nat.to_uint n).

Definition hex_digit (n : nat) : string :=
  String (nth n (list_ascii_of_string "0123456789abcdef") "?"%char) "".

(** The escape Python writes for the surrogate whose last two bytes are
    [b], [c]: a backslash, [u], [d] and three hexadecimal digits. *)
Definition surrogate_escape (b c : ascii) : string :=
  let v := (nat_of_ascii b - 128) * 64 + (nat_of_ascii c - 128) in
  ("\ud" ++ hex_digit (v / 256) ++ hex_digit ((v / 16) mod 16)
     ++ hex_digit (v mod 16))%string.

Definition utf8_encode_error (s : string) : option exn :=
  match find_surrogate s 0 with
  | None => None
  | Some (pos, b, c, run) =>
      Some (Raise "UnicodeEncodeError"
                  (if (run =? 1)%nat then
                     "'utf-8' codec can't encode character '"
                       ++ surrogate_escape b c ++ "' in position "
                       ++ decimal pos ++ ": surrogates not allowed"
                   else
                     "'utf-8' codec can't encode characters in position "
                       ++ decimal pos ++ "-" ++ decimal (pos + run - 1)
                       ++ ": surrogates not allowed")%string)
  end.

(** *** Enough of the generator for a short message

    The boundary: fifteen [=], nineteen digits, two [=]; the draws of this
    generator go up by one with every call into the SMTP library. *)
Definition boundary (log : list smtp_event) (msg : MIMEMultipart) : string :=
  ("===============" ++
   NilEmpty.string_of_uint
     (N.to_uint (1461007074275229424 + N.of_nat (List.length log)))
   ++ "==")%string.

Definition crlf : string :=
  String (ascii_of_nat 13) (String (ascii_of_nat 10) "").

Definition dquote : string := String (ascii_of_nat 34) "".

Fixpoint one_line (s : string) : bool :=
  match s with
  | EmptyString => true
  | String c s' =>
      negb (nat_of_ascii c =? 13)%nat && negb (nat_of_ascii c =? 10)%nat
      && one_line s'
  end.

Definition not_demonstrated : exn :=
  Raise "NotImplementedError" "outside the messages this generator writes".

(** A header whose value is a short line of ASCII is written as it is. *)
Definition flatten_header (h : string * pyval) : result string :=
  match snd h with
  | PStr v =>
      if is_ascii v && one_line v
         && (String.length (fst h) + 2 + String.length v <=? 78)%nat
      then inr (fst h ++ ": " ++ v ++ crlf)%string
      else inl not_demonstrated
  | _ => inl not_demonstrated
  end.

Fixpoint flatten_headers (hs : list (string * pyval)) : result string :=
  match hs with
  | [] => inr ""
  | h :: hs' =>
      match flatten_header h, flatten_headers hs' with
      | inr a, inr b => inr (a ++ b)%string
      | inl e, _ => inl e
      | _, inl e => inl e
      end
  end.

(** A part in ASCII that is one line goes out as [7bit]. *)
Definition flatten_part (part : MIMEText) : result string :=
  if String.eqb (text_charset part) "us-ascii"
     && is_ascii (text_payload part) && one_line (text_payload part)
     && is_ascii (text_subtype part)
  then
    inr ("Content-Type: text/" ++ text_subtype part ++ "; charset="
           ++ dquote ++ "us-ascii" ++ dquote ++ crlf
           ++ "MIME-Version: 1.0" ++ crlf
           ++ "Content-Transfer-Encoding: 7bit" ++ crlf
           ++ crlf ++ text_payload part)%string
  else inl not_demonstrated.

Fixpoint flatten_parts (b : string) (parts : list MIMEText) : result string :=
  match parts with
  | [] => inr ""
  | part :: parts' =>
      match flatten_part part, flatten_parts b parts' with
      | inr a, inr rest =>
          inr ("--" ++ b ++ crlf ++ a ++ crlf ++ rest)%string
      | inl e, _ => inl e
      | _, inl e => inl e
      end
  end.

(** The copy with its boundary set: the content type, folded before the
    boundary parameter, the other headers, an empty line, the parts between
    boundary lines, and the closing boundary line. *)
Definition flatten_message (b : string) (msg : MIMEMultipart) : result string :=
  match headers msg with
  | ("Content-Type", PStr content_type) :: hs =>
      match flatten_headers hs, flatten_parts b (payload msg) with
      | inr h, inr body =>
          if is_ascii content_type && one_line content_type
             && negb (Nat.eqb (List.length (payload msg)) 0)
          then
            inr ("Content-Type: " ++ content_type ++ ";" ++ crlf
                   ++ " boundary=" ++ dquote ++ b ++ dquote ++ crlf
                   ++ h ++ crlf
                   ++ body ++ "--" ++ b ++ "--" ++ crlf)%string
          else inl not_demonstrated
      | inl e, _ => inl e
      | _, inl e => inl e
      end
  | _ => inl not_demonstrated
  end.

(** An environment from the answers of the SMTP endpoint and the template
    directory; entropy of zero bytes, a standard output and an email package
    that encode UTF-8 strictly. *)
Definition make_env
           (connect : list smtp_event -> string -> Z -> option exn)
           (login : list smtp_event -> pyval -> pyval -> option exn)
           (send : list smtp_event -> MIMEMultipart -> option exn)
           (quit : list smtp_event -> option exn)
           (template_directory : string -> result Template) : Env :=
  mkEnv connect login send template_directory (fun _ => x00) simple_repr
        quit utf8_encode_error utf8_encode_error boundary flatten_message.

(** An SMTP endpoint that accepts everything. *)
Definition env : Env :=
  make_env (fun _ _ _ => None) (fun _ _ _ => None) (fun _ _ => None)
           (fun _ => None) templates.

(** The same endpoint in a deployment whose templates are missing. *)
Definition env_no_templates : Env :=
  make_env (fun _ _ _ => None) (fun _ _ _ => None) (fun _ _ => None)
           (fun _ => None) no_templates.

(** Endpoints on which one stage fails: the connection is refused, the
    login is rejected, the transmission times out, the QUIT is answered with
    something other than 221. *)
Definition env_connect_refused : Env :=
  make_env (fun _ _ _ => Some (Raise "ConnectionRefusedError" "Connection refused"))
           (fun _ _ _ => None) (fun _ _ => None) (fun _ => None) templates.

Definition env_login_rejected : Env :=
  make_env (fun _ _ _ => None)
           (fun _ _ _ => Some (Raise "SMTPAuthenticationError" "Bad credentials"))
           (fun _ _ => None) (fun _ => None) templates.

Definition env_send_timeout : Env :=
  make_env (fun _ _ _ => None) (fun _ _ _ => None)
           (fun _ _ => Some (Raise "TimeoutError" "timed out"))
           (fun _ => None) templates.

Definition env_quit_rejected : Env :=
  make_env (fun _ _ _ => None) (fun _ _ _ => None) (fun _ _ => None)
           (fun _ => Some (Raise "SMTPResponseException" "(421, b'closing')"))
           templates.

(** The str a JSON body writes as a lone surrogate, U+D800, followed by
    [@b.com]. *)
Definition surrogate_recipient : string :=
  String (ascii_of_nat 237) (String (ascii_of_nat 160)
    (String (ascii_of_nat 128) "@b.com")).


Definition surrogate_response : response :=
  ([("error",
     PStr "'utf-8' codec can't encode character '\ud800' in position 23: surrogates not allowed")],
   500%Z).

Definition cfg : Config :=
  mkConfig "smtp.gmail.com" 465 (Some "admin@example.com") (Some "secret")
           "https://yourapp.com/reset".

Definition world0 : world := mkWorld [] [] 0.

Definition service : EmailService := EmailService_init cfg.

(** What [service] composes for a one-letter text and a short page. *)
Definition message : MIMEMultipart :=
  mkMIMEMultipart "alternative"
    [("Content-Type", PStr "multipart/alternative");
     ("MIME-Version", PStr "1.0");
     ("Subject", PStr "s"); ("From", PStr "admin@example.com");
     ("To", PStr "a@b.com")]
    [mkMIMEText "plain" "us-ascii" "x"; mkMIMEText "html" "us-ascii" "<p>x</p>"].

End Demo.

(** ** A run of the password-reset endpoint in the small environment *)

Module DemoReset.

Definition request : pyval :=
  PDict [("email", PStr "a@b.com"); ("username", PStr "jdoe")].

(** The token of 32 zero bytes. *)
Definition token : string := "AAAAAAAAAAAAAAAAAAAAAAAAAAAAAAAAAAAAAAAAAAA".

Definition ok_response : response :=
  ([("status", PStr "sent");
    ("message", PStr "Password reset email sent successfully");
    ("token", PStr token)], 200%Z).

Definition world_after : world :=
  Eval vm_compute in
    snd (send_password_reset Demo.env Demo.cfg request Demo.world0).

End DemoReset.


(* ===================================================================== *)
(** * [config.py]: reading the environment                                *)
(* ===================================================================== *)

Section ConfigFromEnvironment.

(** [os.environ], once [load_dotenv()] has run. *)
Variable environ : string -> option string.

(** The builtin [int] applied to a str: the integer, or the [ValueError]. *)
Variable py_int : string -> result Z.

(** [os.environ.get(name, default)] *)
Definition environ_get (name default : string) : string :=
  match environ name with
  | Some value => value
  | None => default
  end.

(** The body of [class Config], executed when the module is imported.  The
    only statement that can raise is the [int(...)] of [MAIL_PORT]; then the
    import fails. *)
Definition load_Config : result Config :=
  let mail_server := environ_get "MAIL_SERVER" "smtp.gmail.com" in
  match py_int (environ_get "MAIL_PORT" "465") with
  | inl e => inl e
  | inr mail_port =>
      inr (mkConfig mail_server mail_port
                    (environ "ADMIN_EMAIL")
                    (environ "ADMIN_PASSWORD")
                    (environ_get "PASSWORD_RESET_URL_BASE"
                                 "https://yourapp.com/reset"))
  end.

End ConfigFromEnvironment.

(** ** Further observations on a run *)

Section Stages.
Variable E : Env.
Variable self : EmailService.
Variables to_email subject html_content text_content : pyval.

(** What one call of [send_email], entered when the endpoint has seen
    [log0], exchanges with it: nothing when the message does not compose; the
    connection alone when it is refused; otherwise the login, the message if
    the login was accepted, and the QUIT. *)
Definition exchanged (log0 : list smtp_event) : list smtp_event :=
  let connect := EvConnect (smtp_server self) (smtp_port self) in
  let login := EvLogin (admin_email self) (admin_password self) in
  match compose_message E self to_email subject html_content text_content with
  | inl _ => []
  | inr msg =>
      match smtp_connect E log0 (smtp_server self) (smtp_port self) with
      | Some _ => [connect]
      | None =>
          match smtp_login E (log0 ++ [connect])
                           (admin_email self) (admin_password self) with
          | Some _ => [connect; login; EvQuit]
          | None => [connect; login; EvSendMessage msg; EvQuit]
          end
      end
  end.

(** The exception the [try] block of that call ends with, [None] when it
    runs to its end: what composing raised; else what the connection raised;
    else what leaves the [with] block, which is what QUIT raised, or, QUIT
    having been accepted, what the login or the transmission raised; else
    what printing the success line raised. *)
Definition first_failure (log0 : list smtp_event) : option exn :=
  let connect := EvConnect (smtp_server self) (smtp_port self) in
  let login := EvLogin (admin_email self) (admin_password self) in
  match compose_message E self to_email subject html_content text_content with
  | inl e => Some e
  | inr msg =>
      match smtp_connect E log0 (smtp_server self) (smtp_port self) with
      | Some e => Some e
      | None =>
          match smtp_login E (log0 ++ [connect])
                           (admin_email self) (admin_password self) with
          | Some e =>
              match smtp_quit E (log0 ++ [connect; login]) with
              | Some q => Some q
              | None => Some e
              end
          | None =>
              match smtp_quit E (log0 ++ [connect; login; EvSendMessage msg]) with
              | Some q => Some q
              | None =>
                  match smtp_send_message E (log0 ++ [connect; login]) msg with
                  | Some e => Some e
                  | None => stdout_encode_error E (sent_line E to_email)
                  end
              end
          end
      end
  end.

End Stages.

(** The bytes [send_message] writes for the messages of a conversation,
    oldest first, [before] being what the endpoint had seen when the
    conversation began: each message is flattened with the boundary settled
    at the point it is handed over. *)
Fixpoint wire (E : Env) (before log : list smtp_event) : list (result string) :=
  match log with
  | [] => []
  | ev :: log' =>
      match ev with
      | EvSendMessage msg => [flatten E (multipart_boundary E before msg) msg]
      | _ => []
      end ++ wire E (before ++ [ev]) log'
  end.

(** The bytes written between two worlds of one run. *)
Definition new_wire (E : Env) (w w' : world) : list (result string) :=
  wire E (smtp_log w) (skipn (List.length (smtp_log w)) (smtp_log w')).

(** The conversations one call of [send_email] on [self] can have with the
    SMTP endpoint: none; a connection that was refused; a login that was
    rejected, the session closed; a message handed over, the session
    closed. *)
Inductive session (self : EmailService) : list smtp_event -> Prop :=
| session_none : session self []
| session_refused :
    session self [EvConnect (smtp_server self) (smtp_port self)]
| session_rejected :
    session self [EvConnect (smtp_server self) (smtp_port self);
                  EvLogin (admin_email self) (admin_password self);
                  EvQuit]
| session_handed (msg : MIMEMultipart) :
    session self [EvConnect (smtp_server self) (smtp_port self);
                  EvLogin (admin_email self) (admin_password self);
                  EvSendMessage msg;
                  EvQuit].

(** [w'] is [w] after printing [out], exchanging [events] with the SMTP
    endpoint and drawing [drawn] bytes of entropy. *)
Definition grows (w w' : world) (out : list string) (events : list smtp_event)
           (drawn : nat) : Prop :=
  stdout w' = stdout w ++ out
  /\ smtp_log w' = smtp_log w ++ events
  /\ entropy_used w' = entropy_used w + drawn.

(** The body a route answers with when [send_email] returned [False]. *)
Definition failure_response (r : route) : option response :=
  match r with
  | POST_send_password_reset =>
      Some ([("error", PStr "Failed to send email")], 500%Z)
  | POST_send_reset_success =>
      Some ([("error", PStr "Failed to send success email")], 500%Z)
  | POST_send_custom_email =>
      Some ([("error", PStr "Failed to send email")], 500%Z)
  | POST_test =>
      Some ([("error", PStr "Failed to send test email")], 500%Z)
  | GET_health => None
  end.

(** The body a route answers with when [send_email] returned [True]; the
    password-reset route adds the token. *)
Definition success_response (r : route) (token : string) : option response :=
  match r with
  | POST_send_password_reset =>
      Some ([("status", PStr "sent");
             ("message", PStr "Password reset email sent successfully");
             ("token", PStr token)], 200%Z)
  | POST_send_reset_success =>
      Some ([("status", PStr "sent"); ("message", PStr "Success email sent")],
            200%Z)
  | POST_send_custom_email =>
      Some ([("status", PStr "sent"); ("message", PStr "Email sent successfully")],
            200%Z)
  | POST_test =>
      Some ([("status", PStr "sent"); ("message", PStr "Test email sent")],
            200%Z)
  | GET_health => None
  end.

Definition is_dict (v : pyval) : bool :=
  match v with
  | PDict _ => true
  | _ => false
  end.

Definition is_str (v : pyval) : bool :=
  match v with
  | PStr _ => true
  | _ => false
  end.

(** A body that passes the test of the two reset endpoints: a JSON object
    with a truthy [email] and a truthy [username]. *)
Definition validated (data : pyval) : Prop :=
  exists d,
    data = PDict d
    /\ truthy (dict_get d "email" PNone) = true
    /\ truthy (dict_get d "username" PNone) = true.

(** How many bytes of entropy a request draws: 32 on the password-reset
    route once the body is validated, none otherwise. *)
Definition draws (r : route) (data : pyval) (drawn : nat) : Prop :=
  (drawn = 32 /\ r = POST_send_password_reset /\ validated data)
  \/ (drawn = 0 /\ ~ (r = POST_send_password_reset /\ validated data)).

(** The recipient a route reads from the body of a request. *)
Definition recipient (r : route) (data : pyval) : pyval :=
  match data with
  | PDict d =>
      match r with
      | POST_send_custom_email => dict_get d "to_email" PNone
      | POST_test => dict_get d "email" (PStr "test@example.com")
      | _ => dict_get d "email" PNone
      end
  | _ => PNone
  end.

(** The ways a request is answered, with the world it leaves: the health
    answer; a 400, nothing done; a 500 carrying the text of an exception
    raised outside [send_email], nothing exchanged with the SMTP endpoint; the
    route's failure answer, [send_email] having returned [False]; the route's
    success answer, a message handed over and the session closed; a 500
    carrying the text of the exception standard output raised on the error
    line of [send_email], which left [send_email] for the handler. *)
Inductive answered (E : Env) (cfg : Config) (r : route) (data : pyval)
          (w : world) : response -> world -> Prop :=
| answered_health :
    r = GET_health ->
    answered E cfg r data w
      ([("status", PStr "healthy"); ("service", PStr "email-service")], 200%Z) w
| answered_400 (msg : string) :
    r <> GET_health -> draws r data 0 ->
    answered E cfg r data w ([("error", PStr msg)], 400%Z) w
| answered_raised (e : exn) (w' : world) (out : list string) (drawn : nat) :
    r <> GET_health -> draws r data drawn ->
    grows w w' out [] drawn -> List.length out <= 1 ->
    answered E cfg r data w ([("error", PStr (exn_str e))], 500%Z) w'
| answered_failed (resp : response) (w' : world) (to_email : pyval) (e : exn)
                  (l : list smtp_event) (drawn : nat) :
    failure_response r = Some resp -> draws r data drawn ->
    grows w w' [error_line E to_email e] l drawn ->
    session (email_service cfg) l ->
    answered E cfg r data w resp w'
| answered_sent (resp : response) (w' : world) (t : string) (to_email : pyval)
                (msg : MIMEMultipart) (drawn : nat) :
    success_response r t = Some resp -> draws r data drawn ->
    grows w w' [sent_line E to_email]
          [EvConnect (smtp_server (email_service cfg))
                     (smtp_port (email_service cfg));
           EvLogin (admin_email (email_service cfg))
                   (admin_password (email_service cfg));
           EvSendMessage msg; EvQuit]
          drawn ->
    (r = POST_send_password_reset -> fst (generate_reset_token E w) = inr t) ->
    answered E cfg r data w resp w'
| answered_escaped (e e' : exn) (w' : world)
                   (subject html_content text_content : pyval)
                   (out : list string) (l : list smtp_event) (drawn : nat) :
    r <> GET_health -> draws r data drawn ->
    first_failure E (email_service cfg) (recipient r data)
                  subject html_content text_content (smtp_log w) = Some e ->
    stdout_encode_error E (error_line E (recipient r data) e) = Some e' ->
    grows w w' out l drawn -> List.length out <= 1 ->
    session (email_service cfg) l ->
    answered E cfg r data w ([("error", PStr (exn_str e'))], 500%Z) w'.

(** ** An environment to load the configuration from *)

Module DemoConfig.

(** Nothing set. *)
Definition environ (name : string) : option string := None.

(** Enough of [int] for the default port. *)
Definition py_int (s : string) : result Z :=
  if String.eqb s "465" then inr 465%Z
  else inl (Raise "ValueError"
                  ("invalid literal for int() with base 10: '" ++ s ++ "'")).

(** What an empty environment loads as. *)
Definition cfg : Config :=
  mkConfig "smtp.gmail.com" 465 None None "https://yourapp.com/reset".

End DemoConfig.

(* ===================================================================== *)
(** * Properties                                                          *)
(* ===================================================================== *)

(** ** The SMTP transmitter: [send_email] *)

Section SendEmailFacts.
Variable E : Env.
Variable self : EmailService.

Ltac step_send_email :=
  unfold send_email, try_except, bind, lift, with_SMTP_SSL, server_login,
    server_send_message, smtp_call, print_formatted, print, ret, log_event;
  simpl.

(** Every run of [send_email], by the first thing that raised in its [try]
    block and by what standard output makes of the error line. *)
Lemma send_email_run to_email subject html_content text_content w :
  let l :=
    exchanged E self to_email subject html_content text_content (smtp_log w) in
  send_email E self to_email subject html_content text_content w =
  match first_failure E self to_email subject html_content text_content
                      (smtp_log w) with
  | None =>
      (inr true,
       mkWorld (stdout w ++ [sent_line E to_email]) (smtp_log w ++ l)
               (entropy_used w))
  | Some e =>
      match stdout_encode_error E (error_line E to_email e) with
      | None =>
          (inr false,
           mkWorld (stdout w ++ [error_line E to_email e]) (smtp_log w ++ l)
                   (entropy_used w))
      | Some e' =>
          (inl e', mkWorld (stdout w) (smtp_log w ++ l) (entropy_used w))
      end
  end.
Proof.
  cbv zeta. unfold first_failure, exchanged. step_send_email.
  destruct w as [out log used]. simpl.
  destruct (compose_message E self to_email subject html_content text_content)
    as [e | msg]; simpl.
  { rewrite app_nil_r. destruct (stdout_encode_error E _); reflexivity. }
  destruct (smtp_connect E log (smtp_server self) (smtp_port self)); simpl.
  { destruct (stdout_encode_error E _); reflexivity. }
  destruct (smtp_login E _ (admin_email self) (admin_password self)); simpl;
    rewrite <- ?app_assoc; simpl.
  { destruct (smtp_quit E _); simpl;
      destruct (stdout_encode_error E _); reflexivity. }
  destruct (smtp_send_message E _ msg); simpl; rewrite <- ?app_assoc; simpl;
    destruct (smtp_quit E _); simpl;
    repeat match goal with
           | |- context [stdout_encode_error E ?line] =>
               destruct (stdout_encode_error E line); simpl
           end;
    reflexivity.
Qed.

(** The run of [send_email] when composing raised: nothing reaches the
    network. *)
Lemma send_email_not_composed to_email subject html_content text_content e w :
  compose_message E self to_email subject html_content text_content = inl e ->
  send_email E self to_email subject html_content text_content w =
  match stdout_encode_error E (error_line E to_email e) with
  | None =>
      (inr false,
       mkWorld (stdout w ++ [error_line E to_email e])
               (smtp_log w) (entropy_used w))
  | Some e' => (inl e', w)
  end.
Proof.
  intros Hc. step_send_email. rewrite Hc. simpl.
  destruct (stdout_encode_error E _); reflexivity.
Qed.

(** The conversation of a run is a session with the configured server. *)
Lemma exchanged_session to_email subject html_content text_content log0 :
  session self (exchanged E self to_email subject html_content text_content log0).
Proof.
  unfold exchanged.
  destruct (compose_message E self _ _ _ _); [constructor |].
  destruct (smtp_connect E _ _ _); [constructor |].
  destruct (smtp_login E _ _ _); constructor.
Qed.

(** A run that found no failure went through the whole session. *)
Lemma first_failure_none to_email subject html_content text_content log0 :
  first_failure E self to_email subject html_content text_content log0 = None ->
  exists msg,
    compose_message E self to_email subject html_content text_content = inr msg
    /\ smtp_connect E log0 (smtp_server self) (smtp_port self) = None
    /\ smtp_login E (log0 ++ [EvConnect (smtp_server self) (smtp_port self)])
                  (admin_email self) (admin_password self) = None
    /\ smtp_send_message E
         (log0 ++ [EvConnect (smtp_server self) (smtp_port self);
                   EvLogin (admin_email self) (admin_password self)])
         msg = None
    /\ smtp_quit E
         (log0 ++ [EvConnect (smtp_server self) (smtp_port self);
                   EvLogin (admin_email self) (admin_password self);
                   EvSendMessage msg]) = None
    /\ stdout_encode_error E (sent_line E to_email) = None
    /\ exchanged E self to_email subject html_content text_content log0
       = [EvConnect (smtp_server self) (smtp_port self);
          EvLogin (admin_email self) (admin_password self);
          EvSendMessage msg; EvQuit].
Proof.
  unfold first_failure, exchanged.
  destruct (compose_message E self _ _ _ _) as [e | msg]; [discriminate |].
  destruct (smtp_connect E _ _ _) eqn:H1; [discriminate |].
  destruct (smtp_login E _ _ _) eqn:H2.
  { destruct (smtp_quit E _); discriminate. }
  destruct (smtp_quit E _) eqn:H4; [discriminate |].
  destruct (smtp_send_message E _ _) eqn:H3; [discriminate |].
  intros H. exists msg. repeat split; assumption.
Qed.

(** Every message of the conversation is the one that composed. *)
Lemma exchanged_sends to_email subject html_content text_content log0 :
  sent_messages (exchanged E self to_email subject html_content text_content log0)
  = []
  \/ exists msg,
      compose_message E self to_email subject html_content text_content = inr msg
      /\ sent_messages
           (exchanged E self to_email subject html_content text_content log0)
         = [msg].
Proof.
  unfold exchanged.
  destruct (compose_message E self _ _ _ _) as [e | msg]; [left; reflexivity |].
  destruct (smtp_connect E _ _ _); [left; reflexivity |].
  destruct (smtp_login E _ _ _); [left; reflexivity |].
  right. exists msg. split; reflexivity.
Qed.

(** What a run appends to the conversation. *)
Lemma send_email_log to_email subject html_content text_content w :
  smtp_log (snd (send_email E self to_email subject html_content text_content w))
  = smtp_log w
    ++ exchanged E self to_email subject html_content text_content (smtp_log w).
Proof.
  rewrite send_email_run. cbv zeta.
  destruct (first_failure E self _ _ _ _ _); [| reflexivity].
  destruct (stdout_encode_error E _); reflexivity.
Qed.

End SendEmailFacts.

Section Transmitter.
Variable E : Env.
Variable self : EmailService.


End Transmitter.



(** ** What a computation hands to the transmitter *)

Lemma sent_messages_app (l1 l2 : list smtp_event) :
  sent_messages (l1 ++ l2) = sent_messages l1 ++ sent_messages l2.
Proof.
  induction l1 as [| ev l1 IH]; simpl; [reflexivity |].
  destruct ev; simpl; rewrite IH; reflexivity.
Qed.

Lemma new_sends_extension (w w' : world) (l : list smtp_event) :
  smtp_log w' = smtp_log w ++ l -> new_sends w w' = sent_messages l.
Proof.
  intros H. unfold new_sends. rewrite H, sent_messages_app.
  rewrite skipn_app, skipn_all, Nat.sub_diag. reflexivity.
Qed.

Section SendsOnly.
Variable P : MIMEMultipart -> Prop.

Lemma sends_only_ret {A} (a : A) : sends_only P (ret a).
Proof. intros w. exists []. simpl. rewrite app_nil_r. auto. Qed.

Lemma sends_only_lift {A} (r : result A) : sends_only P (lift r).
Proof. intros w. exists []. simpl. rewrite app_nil_r. auto. Qed.

Lemma sends_only_print (line : string) : sends_only P (print line).
Proof. intros w. exists []. simpl. rewrite app_nil_r. auto. Qed.

Lemma sends_only_bind {A B} (m : M A) (k : A -> M B) :
  sends_only P m -> (forall a, sends_only P (k a)) -> sends_only P (bind m k).
Proof.
  intros Hm Hk w. unfold bind.
  destruct (Hm w) as (l1 & E1 & F1).
  destruct (m w) as [[e | a] w1]; simpl in *.
  - exists l1. auto.
  - destruct (Hk a w1) as (l2 & E2 & F2).
    exists (l1 ++ l2). rewrite E2, E1, app_assoc. split; [reflexivity |].
    rewrite sent_messages_app. apply Forall_app. auto.
Qed.

Lemma sends_only_try_except {A} (m : M A) (h : exn -> M A) :
  sends_only P m -> (forall e, sends_only P (h e)) ->
  sends_only P (try_except m h).
Proof.
  intros Hm Hh w. unfold try_except.
  destruct (Hm w) as (l1 & E1 & F1).
  destruct (m w) as [[e | a] w1]; simpl in *.
  - destruct (Hh e w1) as (l2 & E2 & F2).
    exists (l1 ++ l2). rewrite E2, E1, app_assoc. split; [reflexivity |].
    rewrite sent_messages_app. apply Forall_app. auto.
  - exists l1. auto.
Qed.

Lemma sends_only_if {A} (c : bool) (m1 m2 : M A) :
  sends_only P m1 -> sends_only P m2 -> sends_only P (if c then m1 else m2).
Proof. destruct c; auto. Qed.

Lemma sends_only_token_urlsafe (E : Env) (n : nat) :
  sends_only P (Secrets.token_urlsafe E n).
Proof. intros w. exists []. simpl. rewrite app_nil_r. auto. Qed.

End SendsOnly.

Create HintDb sends.
#[export] Hint Resolve sends_only_ret sends_only_lift sends_only_print
  sends_only_token_urlsafe : sends.
#[export] Hint Extern 2 (sends_only _ (bind _ _)) =>
  apply sends_only_bind; [| intro] : sends.
#[export] Hint Extern 2 (sends_only _ (try_except _ _)) =>
  apply sends_only_try_except; [| intro] : sends.
#[export] Hint Extern 2 (sends_only _ (if _ then _ else _)) =>
  apply sends_only_if : sends.

Section Composition.
Variable E : Env.
Variable self : EmailService.

(** A part that was built holds a str, under the charset its text asks
    for. *)
Lemma new_MIMEText_inv encode_error text subtype part :
  new_MIMEText encode_error text subtype = inr part ->
  exists s,
    text = PStr s
    /\ part = mkMIMEText subtype (if is_ascii s then "us-ascii" else "utf-8") s.
Proof.
  destruct text as [| | | s | |]; try discriminate. unfold new_MIMEText.
  destruct (is_ascii s) eqn:Ha.
  - intros H. injection H as <-. exists s. rewrite Ha. split; reflexivity.
  - destruct (encode_error s); [discriminate |].
    intros H. injection H as <-. exists s. rewrite Ha. split; reflexivity.
Qed.

(** What [compose_message] builds, when it builds something. *)
Lemma compose_message_inv to_email subject html_content text_content msg :
  compose_message E self to_email subject html_content text_content = inr msg ->
  exists html_part,
    new_MIMEText (text_encode_error E) html_content "html" = inr html_part
    /\ multipart_subtype msg = "alternative"
    /\ headers msg =
       [("Content-Type", PStr "multipart/alternative");
        ("MIME-Version", PStr "1.0");
        ("Subject", subject); ("From", admin_email self); ("To", to_email)]
    /\ (if truthy text_content then
          exists text_part,
            new_MIMEText (text_encode_error E) text_content "plain"
            = inr text_part
            /\ payload msg = [text_part; html_part]
        else payload msg = [html_part]).
Proof.
  unfold compose_message. intros H.
  destruct (truthy text_content).
  - destruct (new_MIMEText _ text_content "plain") as [e | tp]; [discriminate |].
    destruct (new_MIMEText _ html_content "html") as [e | hp]; [discriminate |].
    injection H as <-. exists hp. simpl. repeat split. exists tp. auto.
  - destruct (new_MIMEText _ html_content "html") as [e | hp]; [discriminate |].
    injection H as <-. exists hp. simpl. auto.
Qed.

(** The parts of a composed message, from the arguments. *)
Lemma compose_message_parts to_email subject html_content text_content msg :
  compose_message E self to_email subject html_content text_content = inr msg ->
  exists html,
    html_content = PStr html
    /\ let html_part :=
         mkMIMEText "html" (if is_ascii html then "us-ascii" else "utf-8") html in
       if truthy text_content then
         exists text,
           text_content = PStr text
           /\ payload msg =
              [mkMIMEText "plain" (if is_ascii text then "us-ascii" else "utf-8")
                          text;
               html_part]
       else payload msg = [html_part].
Proof.
  intros Hc. apply compose_message_inv in Hc.
  destruct Hc as (hp & Hh & _ & _ & Hp).
  apply new_MIMEText_inv in Hh. destruct Hh as (html & -> & ->).
  exists html. split; [reflexivity |]. cbv zeta.
  destruct (truthy text_content).
  - destruct Hp as (tp & Htp & Hp).
    apply new_MIMEText_inv in Htp. destruct Htp as (text & -> & ->).
    exists text. auto.
  - assumption.
Qed.

(** A run of [send_email] hands the transmitter nothing, or exactly the
    message [compose_message] built. *)
Lemma send_email_new_sends to_email subject html_content text_content w :
  let run := send_email E self to_email subject html_content text_content w in
  exists l,
    smtp_log (snd run) = smtp_log w ++ l
    /\ (sent_messages l = []
        \/ exists msg,
             compose_message E self to_email subject html_content text_content
               = inr msg
             /\ sent_messages l = [msg]).
Proof.
  cbv zeta. eexists. split; [apply send_email_log |]. apply exchanged_sends.
Qed.


Lemma send_email_in_new_sends to_email subject html_content text_content w m :
  In m (new_sends w
          (snd (send_email E self to_email subject html_content text_content w))) ->
  compose_message E self to_email subject html_content text_content = inr m.
Proof.
  destruct (send_email_new_sends to_email subject html_content text_content w)
    as (l & Hl & [Hs | (msg & Hc & Hs)]);
    rewrite (new_sends_extension _ _ l Hl), Hs; simpl.
  - contradiction.
  - intros [<- | []]. assumption.
Qed.


End Composition.

Section Composer.
Variable E : Env.
Variable self : EmailService.


(** C5. Every message a call of [send_email] hands to the transmitter is a
    [multipart/alternative] whose attached parts are: the HTML part alone
    when [text_content] is absent ([None], or empty: the test is
    [if text_content]); the plain-text part followed by the HTML part when
    a text is given. *)
Theorem send_email_attaches_text_before_html
        (to_email subject html_content text_content : pyval) (w : world)
        (m : MIMEMultipart) :
  In m (new_sends w
          (snd (send_email E self to_email subject html_content text_content w))) ->
  multipart_subtype m = "alternative"
  /\ exists html,
      html_content = PStr html
      /\ let html_part :=
           mkMIMEText "html" (if is_ascii html then "us-ascii" else "utf-8") html in
         if truthy text_content then
           exists text,
             text_content = PStr text
             /\ payload m =
                [mkMIMEText "plain" (if is_ascii text then "us-ascii" else "utf-8")
                            text;
                 html_part]
         else payload m = [html_part].
Proof.
  intros Hin. apply send_email_in_new_sends in Hin.
  split.
  - apply compose_message_inv in Hin.
    destruct Hin as (_ & _ & Hsub & _). exact Hsub.
  - exact (compose_message_parts E self _ _ _ _ _ Hin).
Qed.

End Composer.

(** C5 on a run with a text: the message the endpoint received. *)
Lemma send_email_attaches_text_before_html_witness :
  In Demo.message
     (new_sends Demo.world0
        (snd (send_email Demo.env Demo.service
                (PStr "a@b.com") (PStr "s") (PStr "<p>x</p>") (PStr "x")
                Demo.world0)))
  /\ payload Demo.message =
     [mkMIMEText "plain" "us-ascii" "x"; mkMIMEText "html" "us-ascii" "<p>x</p>"].
Proof.
  assert (Hin : In Demo.message
                   (new_sends Demo.world0
                      (snd (send_email Demo.env Demo.service
                              (PStr "a@b.com") (PStr "s") (PStr "<p>x</p>")
                              (PStr "x") Demo.world0))))
    by (vm_compute; left; reflexivity).
  split; [exact Hin |].
  destruct (send_email_attaches_text_before_html _ _ _ _ _ _ _ _ Hin)
    as (_ & html & Hh & Hp).
  injection Hh as <-. simpl in Hp. destruct Hp as (text & Ht & Hp).
  injection Ht as <-. exact Hp.
Defined.

(** ** The token generator *)

Section Base64Facts.

(** Lists three elements at a time, as the encoder reads them. *)
Lemma list_ind3 {A} (P : list A -> Prop) :
  P [] -> (forall a, P [a]) -> (forall a b, P [a; b]) ->
  (forall a b c rest, P rest -> P (a :: b :: c :: rest)) ->
  forall l, P l.
Proof.
  intros H0 H1 H2 H3.
  assert (H : forall l, P l /\ (forall a, P (a :: l)) /\ (forall a b, P (a :: b :: l))).
  { induction l as [| x l (IH0 & IH1 & IH2)]; repeat split; auto. }
  intros l. apply H.
Qed.

Lemma byte_bound (b : byte) : (Byte.to_N b < 256)%N.
Proof. pose proof (Byte.to_N_bounded b). lia. Qed.

Lemma sextet1_bound a : (a < 256 -> sextet1 a < 64)%N.
Proof. unfold sextet1. intros. apply N.Div0.div_lt_upper_bound. lia. Qed.

Lemma sextet2_bound a b : (b < 256 -> sextet2 a b < 64)%N.
Proof.
  unfold sextet2. intros.
  assert (a mod 4 < 4)%N by (apply N.mod_lt; lia).
  assert (b / 16 < 16)%N by (apply N.Div0.div_lt_upper_bound; lia).
  lia.
Qed.

Lemma sextet3_bound b c : (c < 256 -> sextet3 b c < 64)%N.
Proof.
  unfold sextet3. intros.
  assert (b mod 16 < 16)%N by (apply N.mod_lt; lia).
  assert (c / 64 < 4)%N by (apply N.Div0.div_lt_upper_bound; lia).
  lia.
Qed.

Lemma sextet4_bound c : (sextet4 c < 64)%N.
Proof. unfold sextet4. apply N.mod_lt. lia. Qed.

(** A six-bit group is written as a character that is not the padding, that
    a URL carries unescaped, and from which the group is read back. *)
Lemma urlsafe_char_spec (i : N) :
  (i < 64)%N ->
  Ascii.eqb (urlsafe_char i) pad = false
  /\ url_unreserved (urlsafe_char i) = true
  /\ urlsafe_index (urlsafe_char i) = i.
Proof.
  intros Hi. unfold urlsafe_char, b64char.
  rewrite <- (N2Nat.id i) at 4.
  assert (Hn : (N.to_nat i < 64)%nat) by lia.
  generalize dependent (N.to_nat i). intros n Hn.
  do 64 (destruct n as [| n]; [repeat split; reflexivity |]).
  lia.
Qed.

Lemma rstrip_cons_neq (c a : ascii) (s : string) :
  Ascii.eqb a c = false -> rstrip c (String a s) = String a (rstrip c s).
Proof. intros H. simpl. rewrite H. destruct (rstrip c s); reflexivity. Qed.

Local Abbreviation token := Secrets.encode_token.

Lemma token_1 a :
  token [a] =
  String (urlsafe_char (sextet1 (Byte.to_N a)))
    (String (urlsafe_char (sextet2 (Byte.to_N a) 0)) "").
Proof.
  pose proof (byte_bound a) as Ha.
  destruct (urlsafe_char_spec _ (sextet1_bound _ Ha)) as (H1 & _).
  destruct (urlsafe_char_spec (sextet2 (Byte.to_N a) 0)) as (H2 & _);
    [apply sextet2_bound; lia |].
  unfold Secrets.encode_token, urlsafe_b64encode.
  cbn [b64encode translate]. fold (urlsafe_char (sextet1 (Byte.to_N a))).
  fold (urlsafe_char (sextet2 (Byte.to_N a) 0)).
  rewrite !rstrip_cons_neq by assumption. reflexivity.
Qed.

Lemma token_2 a b :
  token [a; b] =
  String (urlsafe_char (sextet1 (Byte.to_N a)))
    (String (urlsafe_char (sextet2 (Byte.to_N a) (Byte.to_N b)))
       (String (urlsafe_char (sextet3 (Byte.to_N b) 0)) "")).
Proof.
  pose proof (byte_bound a) as Ha. pose proof (byte_bound b) as Hb.
  destruct (urlsafe_char_spec _ (sextet1_bound _ Ha)) as (H1 & _).
  destruct (urlsafe_char_spec _ (sextet2_bound (Byte.to_N a) _ Hb)) as (H2 & _).
  destruct (urlsafe_char_spec (sextet3 (Byte.to_N b) 0)) as (H3 & _);
    [apply sextet3_bound; lia |].
  unfold Secrets.encode_token, urlsafe_b64encode.
  cbn [b64encode translate].
  fold (urlsafe_char (sextet1 (Byte.to_N a))).
  fold (urlsafe_char (sextet2 (Byte.to_N a) (Byte.to_N b))).
  fold (urlsafe_char (sextet3 (Byte.to_N b) 0)).
  rewrite !rstrip_cons_neq by assumption. reflexivity.
Qed.

Lemma token_3 a b c rest :
  token (a :: b :: c :: rest) =
  String (urlsafe_char (sextet1 (Byte.to_N a)))
    (String (urlsafe_char (sextet2 (Byte.to_N a) (Byte.to_N b)))
       (String (urlsafe_char (sextet3 (Byte.to_N b) (Byte.to_N c)))
          (String (urlsafe_char (sextet4 (Byte.to_N c)))
             (token rest)))).
Proof.
  pose proof (byte_bound a) as Ha. pose proof (byte_bound b) as Hb.
  pose proof (byte_bound c) as Hc.
  destruct (urlsafe_char_spec _ (sextet1_bound _ Ha)) as (H1 & _).
  destruct (urlsafe_char_spec _ (sextet2_bound (Byte.to_N a) _ Hb)) as (H2 & _).
  destruct (urlsafe_char_spec _ (sextet3_bound (Byte.to_N b) _ Hc)) as (H3 & _).
  destruct (urlsafe_char_spec _ (sextet4_bound (Byte.to_N c))) as (H4 & _).
  unfold Secrets.encode_token, urlsafe_b64encode.
  cbn [b64encode translate].
  fold (urlsafe_char (sextet1 (Byte.to_N a))).
  fold (urlsafe_char (sextet2 (Byte.to_N a) (Byte.to_N b))).
  fold (urlsafe_char (sextet3 (Byte.to_N b) (Byte.to_N c))).
  fold (urlsafe_char (sextet4 (Byte.to_N c))).
  rewrite !rstrip_cons_neq by assumption. reflexivity.
Qed.

(** Every character of a token can stand in a URL query unescaped. *)
Lemma token_url_unreserved (bs : list byte) :
  string_forallb url_unreserved (token bs) = true.
Proof.
  induction bs as [| a | a b | a b c rest IH] using list_ind3.
  - reflexivity.
  - rewrite token_1. pose proof (byte_bound a) as Ha. cbn [string_forallb].
    destruct (urlsafe_char_spec _ (sextet1_bound _ Ha)) as (_ & -> & _).
    destruct (urlsafe_char_spec (sextet2 (Byte.to_N a) 0)) as (_ & -> & _);
      [apply sextet2_bound; lia | reflexivity].
  - rewrite token_2. pose proof (byte_bound a) as Ha.
    pose proof (byte_bound b) as Hb. cbn [string_forallb].
    destruct (urlsafe_char_spec _ (sextet1_bound _ Ha)) as (_ & -> & _).
    destruct (urlsafe_char_spec _ (sextet2_bound (Byte.to_N a) _ Hb))
      as (_ & -> & _).
    destruct (urlsafe_char_spec (sextet3 (Byte.to_N b) 0)) as (_ & -> & _);
      [apply sextet3_bound; lia | reflexivity].
  - rewrite token_3. pose proof (byte_bound a) as Ha.
    pose proof (byte_bound b) as Hb. pose proof (byte_bound c) as Hc.
    cbn [string_forallb].
    destruct (urlsafe_char_spec _ (sextet1_bound _ Ha)) as (_ & -> & _).
    destruct (urlsafe_char_spec _ (sextet2_bound (Byte.to_N a) _ Hb))
      as (_ & -> & _).
    destruct (urlsafe_char_spec _ (sextet3_bound (Byte.to_N b) _ Hc))
      as (_ & -> & _).
    destruct (urlsafe_char_spec _ (sextet4_bound (Byte.to_N c))) as (_ & -> & _).
    rewrite IH. reflexivity.
Qed.

(** [n] bytes give a token of [ceil (4n / 3)] characters. *)
Lemma token_length (bs : list byte) :
  String.length (token bs) = (4 * List.length bs + 2) / 3.
Proof.
  induction bs as [| a | a b | a b c rest IH] using list_ind3.
  - reflexivity.
  - rewrite token_1. reflexivity.
  - rewrite token_2. reflexivity.
  - rewrite token_3. cbn [String.length List.length]. rewrite IH.
    replace (4 * S (S (S (List.length rest))) + 2)
      with ((4 * List.length rest + 2) + 4 * 3) by lia.
    rewrite Nat.div_add by discriminate. lia.
Qed.

Lemma urlsafe_char_inj (i j : N) :
  (i < 64)%N -> (j < 64)%N -> urlsafe_char i = urlsafe_char j -> i = j.
Proof.
  intros Hi Hj H.
  destruct (urlsafe_char_spec i Hi) as (_ & _ & <-).
  destruct (urlsafe_char_spec j Hj) as (_ & _ & <-).
  rewrite H. reflexivity.
Qed.

Ltac divmod x k :=
  pose proof (N.div_mod x k ltac:(discriminate));
  pose proof (N.mod_lt x k ltac:(discriminate)).

(** The four groups determine the three bytes. *)
Lemma sextets_inj (a b c a' b' c' : N) :
  (a < 256)%N -> (b < 256)%N -> (c < 256)%N ->
  (a' < 256)%N -> (b' < 256)%N -> (c' < 256)%N ->
  sextet1 a = sextet1 a' -> sextet2 a b = sextet2 a' b' ->
  sextet3 b c = sextet3 b' c' -> sextet4 c = sextet4 c' ->
  a = a' /\ b = b' /\ c = c'.
Proof.
  unfold sextet1, sextet2, sextet3, sextet4. intros.
  divmod a 4%N. divmod a' 4%N. divmod b 16%N. divmod b' 16%N.
  divmod c 64%N. divmod c' 64%N.
  lia.
Qed.

Lemma byte_to_N_inj (x y : byte) : Byte.to_N x = Byte.to_N y -> x = y.
Proof.
  intros H. pose proof (Byte.of_to_N x) as Hx. rewrite H in Hx.
  rewrite Byte.of_to_N in Hx. congruence.
Qed.

(** Two groups of three bytes with the same four characters are equal. *)
Lemma chars_inj (a b c a' b' c' : N) :
  (a < 256)%N -> (b < 256)%N -> (c < 256)%N ->
  (a' < 256)%N -> (b' < 256)%N -> (c' < 256)%N ->
  urlsafe_char (sextet1 a) = urlsafe_char (sextet1 a') ->
  urlsafe_char (sextet2 a b) = urlsafe_char (sextet2 a' b') ->
  urlsafe_char (sextet3 b c) = urlsafe_char (sextet3 b' c') ->
  urlsafe_char (sextet4 c) = urlsafe_char (sextet4 c') ->
  a = a' /\ b = b' /\ c = c'.
Proof.
  intros Ha Hb Hc Ha' Hb' Hc' H1 H2 H3 H4.
  apply urlsafe_char_inj in H1; auto using sextet1_bound.
  apply urlsafe_char_inj in H2; auto using sextet2_bound.
  apply urlsafe_char_inj in H3; auto using sextet3_bound.
  apply urlsafe_char_inj in H4; auto using sextet4_bound.
  apply sextets_inj; auto.
Qed.

(** The token keeps every bit of the bytes it is built from. *)
Lemma encode_token_inj (bs bs' : list byte) :
  List.length bs = List.length bs' -> token bs = token bs' -> bs = bs'.
Proof.
  revert bs'.
  induction bs as [| a | a b | a b c rest IH] using list_ind3; intros bs' Hlen Heq.
  - destruct bs'; [reflexivity | discriminate].
  - destruct bs' as [| a' [| ? ?]]; try discriminate.
    rewrite !token_1 in Heq. injection Heq as H1 H2.
    destruct (chars_inj (Byte.to_N a) 0 0 (Byte.to_N a') 0 0) as (Ha & _);
      auto using byte_bound; try reflexivity.
    apply byte_to_N_inj in Ha. congruence.
  - destruct bs' as [| a' [| b' [| ? ?]]]; try discriminate.
    rewrite !token_2 in Heq. injection Heq as H1 H2 H3.
    destruct (chars_inj (Byte.to_N a) (Byte.to_N b) 0
                        (Byte.to_N a') (Byte.to_N b') 0) as (Ha & Hb & _);
      auto using byte_bound; try reflexivity.
    apply byte_to_N_inj in Ha. apply byte_to_N_inj in Hb. congruence.
  - destruct bs' as [| a' [| b' [| c' rest']]]; try discriminate.
    rewrite !token_3 in Heq. injection Heq as H1 H2 H3 H4 Hrest.
    destruct (chars_inj (Byte.to_N a) (Byte.to_N b) (Byte.to_N c)
                        (Byte.to_N a') (Byte.to_N b') (Byte.to_N c'))
      as (Ha & Hb & Hc); auto using byte_bound.
    apply byte_to_N_inj in Ha. apply byte_to_N_inj in Hb.
    apply byte_to_N_inj in Hc.
    simpl in Hlen. injection Hlen as Hlen.
    rewrite (IH rest' Hlen Hrest). congruence.
Qed.

End Base64Facts.

Section TokenGenerator.
Variable E : Env.

(** C6. [generate_reset_token] always returns.  Its result is the URL-safe
    base64 form of the next 32 bytes of the system's entropy, which the call
    consumes; it has 43 characters, each one a character a URL carries
    unescaped; and the token determines the 32 bytes, so none of their bits
    is lost. *)
Theorem generate_reset_token_is_urlsafe_from_32_bytes (w : world) :
  let bs := map (os_entropy E) (seq (entropy_used w) 32) in
  let t := Secrets.encode_token bs in
  generate_reset_token E w
  = (inr t, mkWorld (stdout w) (smtp_log w) (entropy_used w + 32))
  /\ List.length bs = 32
  /\ String.length t = 43
  /\ string_forallb url_unreserved t = true
  /\ (forall bs', List.length bs' = 32 -> Secrets.encode_token bs' = t -> bs' = bs).
Proof.
  cbv zeta.
  assert (Hlen : List.length (map (os_entropy E) (seq (entropy_used w) 32)) = 32)
    by (rewrite length_map, length_seq; reflexivity).
  split; [reflexivity |].
  split; [exact Hlen |].
  split; [rewrite token_length, Hlen; reflexivity |].
  split; [apply token_url_unreserved |].
  intros bs' Hbs' Heq. apply encode_token_inj; congruence.
Qed.

End TokenGenerator.

(** ** The facade *)

Section Facade.
Variable E : Env.
Variable self : EmailService.

(** C7. [send_password_reset_email] greets by [user_name] when one is given
    and by [username] otherwise ([user_name or username]); it renders
    [password_reset.html] with [user_name] bound to that greeting name,
    [username], [reset_url] and [expiration_minutes = 60]; and, when rendering
    returns, it is the call of [send_email] with the fixed subject, the
    rendered HTML and a plain text in which the greeting name and the reset
    URL stand as they are. *)
Theorem send_password_reset_email_renders_then_delegates
        (to_email username reset_url user_name : pyval) (w : world) :
  let display_name := if truthy user_name then user_name else username in
  let context :=
    [("user_name", display_name); ("username", username);
     ("reset_url", reset_url); ("expiration_minutes", PInt 60)] in
  exists before between after : string,
    let text_content :=
      (before ++ py_str E display_name ++ between ++ py_str E reset_url
         ++ after)%string in
    send_password_reset_email E self to_email username reset_url user_name w
    = match get_template E "password_reset.html" with
      | inl e => (inl e, w)
      | inr template =>
          match template context with
          | inl e => (inl e, w)
          | inr html_content =>
              send_email E self to_email
                (PStr "Password Reset - Computer Networks Program")
                (PStr html_content) (PStr text_content) w
          end
      end.
Proof.
  cbv zeta.
  exists (nl ++ indent ++ "Hello ")%string.
  exists
    ("," ++ nl ++
     indent ++ nl ++
     indent ++ "You requested a password reset for your Computer Networks program account." ++ nl ++
     indent ++ nl ++
     indent ++ "Please visit this link to reset your password:" ++ nl ++
     indent)%string.
  exists
    (nl ++
     indent ++ nl ++
     indent ++ "This link will expire in 60 minutes for security purposes." ++ nl ++
     indent ++ nl ++
     indent ++ "If you didn't request this password reset, you can safely ignore this email." ++ nl ++
     indent ++ nl ++
     indent ++ "- Computer Networks Program Team" ++ nl ++
     indent)%string.
  unfold send_password_reset_email, render_template, bind, lift,
    password_reset_context, password_reset_subject, py_or.
  destruct (get_template E "password_reset.html") as [e | template];
    [reflexivity |].
  destruct (template _) as [e | html]; reflexivity.
Qed.

End Facade.

(** ** The HTTP endpoints *)

Section Endpoints.
Variable E : Env.
Variable cfg : Config.

(** C9. On [/api/email/send-password-reset] and on
    [/api/email/send-reset-success], a JSON body whose [email] or [username]
    is present but empty or otherwise falsy is answered with status 400 and
    the message that both are required, and nothing else happens: the world
    is left as it was, so the email service is not called.  That is the run
    of the endpoint on a body in which the fields are missing. *)
Theorem falsy_required_field_is_rejected_with_400
        (d : list (string * pyval)) (w : world) :
  truthy (dict_get d "email" PNone) = false
  \/ truthy (dict_get d "username" PNone) = false ->
  (send_password_reset E cfg (PDict d) w
   = (inr ([("error", PStr "email and username are required")], 400%Z), w)
   /\ send_reset_success E cfg (PDict d) w
      = (inr ([("error", PStr "email and username are required")], 400%Z), w))
  /\ (send_password_reset E cfg (PDict d) w
      = send_password_reset E cfg (PDict []) w
      /\ send_reset_success E cfg (PDict d) w
         = send_reset_success E cfg (PDict []) w).
Proof.
  intros H.
  assert (Hc : negb (truthy (dict_get d "email" PNone))
               || negb (truthy (dict_get d "username" PNone)) = true).
  { destruct H as [-> | ->]; [reflexivity | apply orb_true_r]. }
  assert (Hreset :
            send_password_reset E cfg (PDict d) w
            = (inr ([("error", PStr "email and username are required")], 400%Z),
               w)).
  { unfold send_password_reset, try_except, bind, lift, ret.
    simpl. rewrite Hc. reflexivity. }
  assert (Hsuccess :
            send_reset_success E cfg (PDict d) w
            = (inr ([("error", PStr "email and username are required")], 400%Z),
               w)).
  { unfold send_reset_success, try_except, bind, lift, ret.
    simpl. rewrite Hc. reflexivity. }
  split; [split; assumption |].
  rewrite Hreset, Hsuccess. split; reflexivity.
Qed.

End Endpoints.

(** C9 on a body whose [email] is the empty string. *)
Lemma falsy_required_field_is_rejected_with_400_witness :
  truthy (dict_get [("email", PStr ""); ("username", PStr "jdoe")] "email" PNone)
  = false
  /\ send_password_reset Demo.env Demo.cfg
       (PDict [("email", PStr ""); ("username", PStr "jdoe")]) Demo.world0
     = (inr ([("error", PStr "email and username are required")], 400%Z),
        Demo.world0)
  /\ send_reset_success Demo.env Demo.cfg
       (PDict [("email", PStr ""); ("username", PStr "jdoe")]) Demo.world0
     = (inr ([("error", PStr "email and username are required")], 400%Z),
        Demo.world0).
Proof.
  split; [reflexivity |].
  apply (falsy_required_field_is_rejected_with_400 Demo.env Demo.cfg
           [("email", PStr ""); ("username", PStr "jdoe")] Demo.world0).
  left. reflexivity.
Defined.

Section PasswordResetEndpoint.
Variable E : Env.
Variable cfg : Config.

(** C8. When [/api/email/send-password-reset] answers 200, the body was a
    JSON object with a truthy [email] and [username]; a token [t] was drawn
    for this request; the facade was called with the reset URL
    [PASSWORD_RESET_URL_BASE ++ "?token=" ++ t ++ "&username=" ++ username]
    and returned [True]; and the [token] field of the answer is that same
    [t]. *)
Theorem send_password_reset_200_carries_the_fresh_token
        (data : pyval) (w w' : world) (resp : response) :
  send_password_reset E cfg data w = (inr resp, w') ->
  status resp = 200%Z ->
  exists (d : list (string * pyval)) (t : string) (w1 : world),
    data = PDict d
    /\ truthy (dict_get d "email" PNone) = true
    /\ truthy (dict_get d "username" PNone) = true
    /\ generate_reset_token E w = (inr t, w1)
    /\ send_password_reset_email E (email_service cfg)
         (dict_get d "email" PNone)
         (dict_get d "username" PNone)
         (PStr (PASSWORD_RESET_URL_BASE cfg ++ "?token=" ++ t ++ "&username="
                  ++ py_str E (dict_get d "username" PNone)))
         (dict_get d "user_name" PNone)
         w1
       = (inr true, w')
    /\ resp = ([("status", PStr "sent");
                ("message", PStr "Password reset email sent successfully");
                ("token", PStr t)], 200%Z)
    /\ dict_get (body resp) "token" PNone = PStr t.
Proof.
  intros Hrun Hst.
  destruct data as [| b | n | s | l | d];
    try (cbv [send_password_reset try_except bind lift py_get print ret] in Hrun;
         injection Hrun as <- _; discriminate Hst).
  cbv [send_password_reset try_except bind lift py_get ret] in Hrun.
  destruct (truthy (dict_get d "email" PNone)) eqn:He;
    [| injection Hrun as <- _; discriminate Hst].
  destruct (truthy (dict_get d "username" PNone)) eqn:Hu;
    [| injection Hrun as <- _; discriminate Hst].
  cbn [negb orb] in Hrun.
  destruct (generate_reset_token E w) as [[e | t] w1] eqn:Hg;
    [cbv [print] in Hrun; injection Hrun as <- _; discriminate Hst |].
  destruct (send_password_reset_email E (email_service cfg) _ _ _ _ w1)
    as [[e | [|]] w2] eqn:Hs.
  - cbv [print] in Hrun. injection Hrun as <- _. discriminate Hst.
  - injection Hrun as <- <-. exists d, t, w1. repeat split; auto.
  - injection Hrun as <- _. discriminate Hst.
Qed.

End PasswordResetEndpoint.

(** C8 on the request of the specification's end-to-end scenario. *)
Lemma send_password_reset_200_carries_the_fresh_token_witness :
  send_password_reset Demo.env Demo.cfg DemoReset.request Demo.world0
  = (inr DemoReset.ok_response, DemoReset.world_after)
  /\ status DemoReset.ok_response = 200%Z
  /\ exists (d : list (string * pyval)) (t : string) (w1 : world),
      DemoReset.request = PDict d
      /\ truthy (dict_get d "email" PNone) = true
      /\ truthy (dict_get d "username" PNone) = true
      /\ generate_reset_token Demo.env Demo.world0 = (inr t, w1)
      /\ send_password_reset_email Demo.env (email_service Demo.cfg)
           (dict_get d "email" PNone)
           (dict_get d "username" PNone)
           (PStr (PASSWORD_RESET_URL_BASE Demo.cfg ++ "?token=" ++ t
                    ++ "&username="
                    ++ py_str Demo.env (dict_get d "username" PNone)))
           (dict_get d "user_name" PNone)
           w1
         = (inr true, DemoReset.world_after)
      /\ DemoReset.ok_response
         = ([("status", PStr "sent");
             ("message", PStr "Password reset email sent successfully");
             ("token", PStr t)], 200%Z)
      /\ dict_get (body DemoReset.ok_response) "token" PNone = PStr t.
Proof.
  assert (Hrun : send_password_reset Demo.env Demo.cfg DemoReset.request
                   Demo.world0
                 = (inr DemoReset.ok_response, DemoReset.world_after))
    by (vm_compute; reflexivity).
  split; [exact Hrun |].
  split; [reflexivity |].
  exact (send_password_reset_200_carries_the_fresh_token
           Demo.env Demo.cfg _ _ _ _ Hrun eq_refl).
Defined.

(** ** Rendering errors *)

Section RenderingErrors.
Variable E : Env.
Variable cfg : Config.

Lemma reset_email_render_error self to_email username reset_url user_name w e :
  render_template E "password_reset.html"
    (password_reset_context (py_or user_name username) username reset_url) w
  = (inl e, w) ->
  send_password_reset_email E self to_email username reset_url user_name w
  = (inl e, w).
Proof.
  intros H. unfold send_password_reset_email, bind. rewrite H. reflexivity.
Qed.

Lemma success_email_render_error self to_email username w e :
  render_template E "password_reset_success.html" [("username", username)] w
  = (inl e, w) ->
  send_password_reset_success_email E self to_email username w = (inl e, w).
Proof.
  intros H. unfold send_password_reset_success_email, bind. rewrite H.
  reflexivity.
Qed.

Lemma generate_reset_token_world w t w1 :
  generate_reset_token E w = (inr t, w1) ->
  stdout w1 = stdout w /\ smtp_log w1 = smtp_log w.
Proof.
  cbv [generate_reset_token Secrets.token_urlsafe Secrets.token_bytes bind ret].
  intros H. injection H as _ <-. split; reflexivity.
Qed.

Lemma reset_endpoint_render_error d w t w1 e :
  let email := dict_get d "email" PNone in
  let username := dict_get d "username" PNone in
  let user_name := dict_get d "user_name" PNone in
  let reset_url :=
    PStr (PASSWORD_RESET_URL_BASE cfg ++ "?token=" ++ t ++ "&username="
            ++ py_str E username) in
  truthy email = true -> truthy username = true ->
  generate_reset_token E w = (inr t, w1) ->
  render_template E "password_reset.html"
    (password_reset_context (py_or user_name username) username reset_url) w1
  = (inl e, w1) ->
  send_password_reset E cfg (PDict d) w
  = (inr ([("error", PStr (exn_str e))], 500%Z),
     mkWorld
       (stdout w1 ++ [("Error in password reset endpoint: " ++ exn_str e)%string])
       (smtp_log w1) (entropy_used w1)).
Proof.
  cbv zeta. intros He Hu Hg Hr.
  cbv [send_password_reset try_except bind lift py_get ret].
  rewrite He, Hu. cbn [negb orb]. rewrite Hg.
  rewrite (reset_email_render_error _ _ _ _ _ _ _ Hr). reflexivity.
Qed.

Lemma success_endpoint_render_error d w e :
  let email := dict_get d "email" PNone in
  let username := dict_get d "username" PNone in
  truthy email = true -> truthy username = true ->
  render_template E "password_reset_success.html" [("username", username)] w
  = (inl e, w) ->
  send_reset_success E cfg (PDict d) w
  = (inr ([("error", PStr (exn_str e))], 500%Z),
     mkWorld
       (stdout w ++ [("Error in success email endpoint: " ++ exn_str e)%string])
       (smtp_log w) (entropy_used w)).
Proof.
  cbv zeta. intros He Hu Hr.
  cbv [send_reset_success try_except bind lift py_get ret].
  rewrite He, Hu. cbn [negb orb].
  rewrite (success_email_render_error _ _ _ _ _ Hr). reflexivity.
Qed.

(** C4. When looking up or rendering the template raises [e]:
    [send_password_reset_email] and [send_password_reset_success_email] do not
    catch it, they raise [e] themselves and leave the world as it was, so the
    transmitter is not called; and the endpoint that made the call answers
    500 with [str(e)] as the error, the conversation with the SMTP endpoint
    unchanged. *)
Theorem rendering_error_escapes_the_facade_as_500 (e : exn) :
  (forall self to_email username reset_url user_name w,
      render_template E "password_reset.html"
        (password_reset_context (py_or user_name username) username reset_url) w
      = (inl e, w) ->
      send_password_reset_email E self to_email username reset_url user_name w
      = (inl e, w))
  /\ (forall self to_email username w,
         render_template E "password_reset_success.html"
           [("username", username)] w
         = (inl e, w) ->
         send_password_reset_success_email E self to_email username w
         = (inl e, w))
  /\ (forall d w t w1,
         let username := dict_get d "username" PNone in
         let user_name := dict_get d "user_name" PNone in
         let reset_url :=
           PStr (PASSWORD_RESET_URL_BASE cfg ++ "?token=" ++ t
                   ++ "&username=" ++ py_str E username) in
         truthy (dict_get d "email" PNone) = true ->
         truthy username = true ->
         generate_reset_token E w = (inr t, w1) ->
         render_template E "password_reset.html"
           (password_reset_context (py_or user_name username) username reset_url)
           w1
         = (inl e, w1) ->
         let run := send_password_reset E cfg (PDict d) w in
         fst run = inr ([("error", PStr (exn_str e))], 500%Z)
         /\ smtp_log (snd run) = smtp_log w)
  /\ (forall d w,
         let username := dict_get d "username" PNone in
         truthy (dict_get d "email" PNone) = true ->
         truthy username = true ->
         render_template E "password_reset_success.html"
           [("username", username)] w
         = (inl e, w) ->
         let run := send_reset_success E cfg (PDict d) w in
         fst run = inr ([("error", PStr (exn_str e))], 500%Z)
         /\ smtp_log (snd run) = smtp_log w).
Proof.
  split; [intros; apply reset_email_render_error; assumption |].
  split; [intros; apply success_email_render_error; assumption |].
  split.
  - intros d w t w1 username user_name reset_url He Hu Hg Hr run.
    subst run. rewrite (reset_endpoint_render_error d w t w1 e He Hu Hg Hr).
    split; [reflexivity |]. apply (generate_reset_token_world w t w1 Hg).
  - intros d w username He Hu Hr run.
    subst run. rewrite (success_endpoint_render_error d w e He Hu Hr).
    split; reflexivity.
Qed.

End RenderingErrors.

(** C4 in a deployment without templates: the facade raises, both
    endpoints answer 500 with the name of the template that was not found,
    and no mail is sent. *)
Lemma rendering_error_escapes_the_facade_as_500_witness :
  (render_template Demo.env_no_templates "password_reset_success.html"
     [("username", PStr "jdoe")] Demo.world0
   = (inl (Demo.TemplateNotFound "password_reset_success.html"), Demo.world0)
   /\ send_password_reset_success_email Demo.env_no_templates Demo.service
        (PStr "a@b.com") (PStr "jdoe") Demo.world0
      = (inl (Demo.TemplateNotFound "password_reset_success.html"), Demo.world0)
   /\ fst (send_reset_success Demo.env_no_templates Demo.cfg DemoReset.request
             Demo.world0)
      = inr ([("error", PStr "password_reset_success.html")], 500%Z)
   /\ smtp_log (snd (send_reset_success Demo.env_no_templates Demo.cfg
                       DemoReset.request Demo.world0))
      = [])
  /\ (generate_reset_token Demo.env_no_templates Demo.world0
      = (inr DemoReset.token, mkWorld [] [] 32)
      /\ fst (send_password_reset Demo.env_no_templates Demo.cfg
                DemoReset.request Demo.world0)
         = inr ([("error", PStr "password_reset.html")], 500%Z)
      /\ smtp_log (snd (send_password_reset Demo.env_no_templates Demo.cfg
                          DemoReset.request Demo.world0))
         = []).
Proof.
  split.
  - pose proof (rendering_error_escapes_the_facade_as_500
                  Demo.env_no_templates Demo.cfg
                  (Demo.TemplateNotFound "password_reset_success.html"))
      as (_ & Hfacade & _ & Hendpoint).
    split; [reflexivity |].
    split; [apply Hfacade; reflexivity |].
    apply (Hendpoint [("email", PStr "a@b.com"); ("username", PStr "jdoe")]
                     Demo.world0); reflexivity.
  - pose proof (rendering_error_escapes_the_facade_as_500
                  Demo.env_no_templates Demo.cfg
                  (Demo.TemplateNotFound "password_reset.html"))
      as (_ & _ & Hendpoint & _).
    assert (Hg : generate_reset_token Demo.env_no_templates Demo.world0
                 = (inr DemoReset.token, mkWorld [] [] 32))
      by (vm_compute; reflexivity).
    split; [exact Hg |].
    apply (Hendpoint [("email", PStr "a@b.com"); ("username", PStr "jdoe")]
                     Demo.world0 DemoReset.token (mkWorld [] [] 32));
      solve [exact Hg | reflexivity].
Defined.

(** ** The sender address *)

Section Sender.
Variable E : Env.
Variable cfg : Config.

Lemma sends_only_send_email to_email subject html_content text_content :
  sends_only (from_admin cfg)
    (send_email E (email_service cfg) to_email subject html_content text_content).
Proof.
  intros w.
  destruct (send_email_new_sends E (email_service cfg)
              to_email subject html_content text_content w)
    as (l & Hl & [Hs | (msg & Hc & Hs)]);
    exists l; (split; [exact Hl |]); rewrite Hs; constructor; [| constructor].
  apply compose_message_inv in Hc. destruct Hc as (_ & _ & _ & Hh & _).
  exists subject, to_email. exact Hh.
Qed.

Lemma sends_only_render_template {P} name context :
  sends_only P (render_template E name context).
Proof. unfold render_template. auto with sends. Qed.

Lemma sends_only_dispatch (r : route) (data : pyval) :
  sends_only (from_admin cfg) (dispatch E cfg r data).
Proof.
  pose proof sends_only_send_email.
  pose proof (@sends_only_render_template (from_admin cfg)).
  destruct r; simpl;
    unfold send_password_reset, send_reset_success, health_check,
      send_custom_email, test_email, generate_reset_token,
      send_password_reset_email, send_password_reset_success_email;
    auto 20 with sends.
Qed.

(** C10. Whatever the route and whatever the JSON body, every message the
    request hands to the transmitter carries exactly one [From] header, and it
    holds the configured [ADMIN_EMAIL]; reading [msg['From']] gives that
    address. *)
Theorem every_message_is_sent_from_admin_email
        (r : route) (data : pyval) (w : world) :
  Forall
    (fun m =>
       (exists subject to_email,
           headers m =
           [("Content-Type", PStr "multipart/alternative");
            ("MIME-Version", PStr "1.0");
            ("Subject", subject); ("From", of_environ (ADMIN_EMAIL cfg));
            ("To", to_email)])
       /\ get_header m "From" = Some (of_environ (ADMIN_EMAIL cfg)))
    (new_sends w (snd (dispatch E cfg r data w))).
Proof.
  destruct (sends_only_dispatch r data w) as (l & Hl & Hf).
  rewrite (new_sends_extension _ _ l Hl).
  eapply Forall_impl; [| exact Hf].
  intros m (subject & to_email & Hh). split.
  - exists subject, to_email. exact Hh.
  - unfold get_header. rewrite Hh. reflexivity.
Qed.

End Sender.

(** ** The custom-email endpoint *)

Section CustomEmail.
Variable E : Env.
Variable cfg : Config.

(** When the [and] chain of the three fields evaluates to [None], which it
    does when the first field that is not truthy is a missing one, [all]
    raises and the handler's [except] answers 500. *)
Lemma send_custom_email_none_is_500 (d : list (string * pyval)) (w : world) :
  py_and (py_and (dict_get d "to_email" PNone) (dict_get d "subject" PNone))
         (dict_get d "html_content" PNone)
  = PNone ->
  send_custom_email E cfg (PDict d) w
  = (inr ([("error", PStr "'NoneType' object is not iterable")], 500%Z), w).
Proof.
  intros H. cbv [send_custom_email try_except bind lift py_get ret].
  rewrite H. reflexivity.
Qed.

(** C2, as the code has it.  A body without [to_email] is answered with
    status 500 and the text of the [TypeError], not with 400; nothing is sent.
    A body without [subject] whose [to_email] is the empty string passes the
    test, and the message is composed with no subject and handed to the
    transmitter. *)
Theorem send_custom_email_missing_field_is_not_answered_400 (w : world) :
  send_custom_email E cfg
    (PDict [("subject", PStr "Hi"); ("html_content", PStr "<p>x</p>")]) w
  = (inr ([("error", PStr "'NoneType' object is not iterable")], 500%Z), w)
  /\ sent_messages
       (smtp_log
          (snd (send_custom_email Demo.env Demo.cfg
                  (PDict [("to_email", PStr ""); ("html_content", PStr "<p>x</p>")])
                  Demo.world0)))
     = [mkMIMEMultipart "alternative"
          [("Content-Type", PStr "multipart/alternative");
           ("MIME-Version", PStr "1.0");
           ("Subject", PNone); ("From", PStr "admin@example.com");
           ("To", PStr "")]
          [mkMIMEText "html" "us-ascii" "<p>x</p>"]]
  /\ fst (send_custom_email Demo.env Demo.cfg
            (PDict [("to_email", PStr ""); ("html_content", PStr "<p>x</p>")])
            Demo.world0)
     = inr ([("status", PStr "sent"); ("message", PStr "Email sent successfully")],
            200%Z).
Proof.
  split; [apply send_custom_email_none_is_500; reflexivity |].
  split; reflexivity.
Qed.

End CustomEmail.



(** ** The scenarios of the specification, run *)

Section Scenarios.

Let to_email := PStr "a@b.com".
Let subject := PStr "s".
Let html := PStr "<p>x</p>".

(** Connection refused, login rejected, transmission timed out: [False]
    each time, and the message reaches the endpoint only in the last. *)
Example send_email_stage_failures :
  let refused := send_email Demo.env_connect_refused Demo.service
                   to_email subject html (PStr "x") Demo.world0 in
  let rejected := send_email Demo.env_login_rejected Demo.service
                    to_email subject html (PStr "x") Demo.world0 in
  let timed_out := send_email Demo.env_send_timeout Demo.service
                     to_email subject html (PStr "x") Demo.world0 in
  (fst refused = inr false
   /\ smtp_log (snd refused) = [EvConnect "smtp.gmail.com" 465])
  /\ (fst rejected = inr false
      /\ smtp_log (snd rejected)
         = [EvConnect "smtp.gmail.com" 465;
            EvLogin (PStr "admin@example.com") (PStr "secret"); EvQuit])
  /\ (fst timed_out = inr false
      /\ smtp_log (snd timed_out)
         = [EvConnect "smtp.gmail.com" 465;
            EvLogin (PStr "admin@example.com") (PStr "secret");
            EvSendMessage Demo.message; EvQuit]
      /\ stdout (snd timed_out)
         = ["Error sending email to a@b.com: timed out"]).
Proof. cbv zeta. repeat split; reflexivity. Qed.

(** The QUIT answered with 421 after the message was accepted: [False], and
    the line printed carries what QUIT raised. *)
Example send_email_quit_rejected :
  send_email Demo.env_quit_rejected Demo.service to_email subject html (PStr "x")
    Demo.world0
  = (inr false,
     mkWorld ["Error sending email to a@b.com: (421, b'closing')"]
             [EvConnect "smtp.gmail.com" 465;
              EvLogin (PStr "admin@example.com") (PStr "secret");
              EvSendMessage Demo.message; EvQuit]
             0).
Proof. reflexivity. Qed.

(** A recipient holding a lone surrogate, the connection refused: the error
    line cannot be printed, and the call raises instead of returning. *)
Example send_email_error_line_not_printed :
  send_email Demo.env_connect_refused Demo.service
    (PStr Demo.surrogate_recipient) subject html (PStr "x") Demo.world0
  = (inl (Raise "UnicodeEncodeError"
                "'utf-8' codec can't encode character '\ud800' in position 23: surrogates not allowed"),
     mkWorld [] [EvConnect "smtp.gmail.com" 465] 0).
Proof. reflexivity. Qed.

(** A page holding a lone surrogate does not compose: the part cannot be
    encoded; the error line, which is ASCII, is printed. *)
Example send_email_html_not_encodable :
  send_email Demo.env Demo.service to_email subject
    (PStr Demo.surrogate_recipient) PNone Demo.world0
  = (inr false,
     mkWorld ["Error sending email to a@b.com: 'utf-8' codec can't encode character '\ud800' in position 0: surrogates not allowed"]
             [] 0).
Proof. reflexivity. Qed.

(** The same request on the password-reset route: the exception that left
    [send_email] is answered by the handler of the endpoint. *)
Example send_password_reset_error_line_not_printed :
  send_password_reset Demo.env_login_rejected Demo.cfg
    (PDict [("email", PStr Demo.surrogate_recipient); ("username", PStr "jdoe")])
    Demo.world0
  = (inr Demo.surrogate_response,
     mkWorld ["Error in password reset endpoint: 'utf-8' codec can't encode character '\ud800' in position 23: surrogates not allowed"]
             [EvConnect "smtp.gmail.com" 465;
              EvLogin (PStr "admin@example.com") (PStr "secret"); EvQuit]
             32).
Proof. reflexivity. Qed.

(** The bytes of the message of the first call, line by line; the boundary
    is the one drawn once the endpoint has seen the connection and the
    login. *)
Example bytes_of_the_first_message :
  let b := "===============1461007074275229426==" in
  new_wire Demo.env Demo.world0
    (snd (send_email Demo.env Demo.service to_email subject html (PStr "x")
            Demo.world0))
  = [inr (String.concat Demo.crlf
            ["Content-Type: multipart/alternative;";
             " boundary=" ++ Demo.dquote ++ b ++ Demo.dquote;
             "MIME-Version: 1.0";
             "Subject: s";
             "From: admin@example.com";
             "To: a@b.com";
             EmptyString;
             "--" ++ b;
             "Content-Type: text/plain; charset="
               ++ Demo.dquote ++ "us-ascii" ++ Demo.dquote;
             "MIME-Version: 1.0";
             "Content-Transfer-Encoding: 7bit";
             EmptyString;
             "x";
             "--" ++ b;
             "Content-Type: text/html; charset="
               ++ Demo.dquote ++ "us-ascii" ++ Demo.dquote;
             "MIME-Version: 1.0";
             "Content-Transfer-Encoding: 7bit";
             EmptyString;
             "<p>x</p>";
             "--" ++ b ++ "--";
             EmptyString]%string)].
Proof. vm_compute. reflexivity. Qed.

(** A html that is not a str does not compose: [False], no network call. *)
Example send_email_html_not_a_str :
  send_email Demo.env Demo.service to_email subject (PList [PInt 1]) PNone
    Demo.world0
  = (inr false,
     mkWorld ["Error sending email to a@b.com: 'list' object has no attribute 'encode'"]
             [] 0).
Proof. reflexivity. Qed.

(** The facade without a display name greets by the username. *)
Example send_password_reset_email_greets_by_username :
  let reset_url := PStr "https://x/reset?token=T&username=jdoe" in
  let run := send_password_reset_email Demo.env Demo.service
               to_email (PStr "jdoe") reset_url PNone Demo.world0 in
  fst run = inr true
  /\ map (fun m => get_header m "Subject") (new_sends Demo.world0 (snd run))
     = [Some (PStr "Password Reset - Computer Networks Program")]
  /\ map payload (new_sends Demo.world0 (snd run))
     = [[mkMIMEText "plain" "us-ascii"
           (password_reset_text Demo.env (PStr "jdoe") reset_url);
         mkMIMEText "html" "us-ascii"
           "<p>Hello jdoe</p><a href='https://x/reset?token=T&username=jdoe'>Reset</a>"]].
Proof. cbv zeta. repeat split; reflexivity. Qed.

(** The two plain-text bodies, character for character. *)
Example password_reset_text_of_jdoe :
  password_reset_text Demo.env (PStr "jdoe")
    (PStr "https://x/reset?token=T&username=jdoe")
  = "
        Hello jdoe,
        
        You requested a password reset for your Computer Networks program account.
        
        Please visit this link to reset your password:
        https://x/reset?token=T&username=jdoe
        
        This link will expire in 60 minutes for security purposes.
        
        If you didn't request this password reset, you can safely ignore this email.
        
        - Computer Networks Program Team
        ".
Proof. reflexivity. Qed.

Example password_reset_success_text_of_jdoe :
  password_reset_success_text Demo.env (PStr "jdoe")
  = "
        Hello jdoe,
        
        Your password has been successfully reset for the Computer Networks program.
        
        If you did not make this change, please contact support immediately.
        
        - Computer Networks Program Team
        ".
Proof. reflexivity. Qed.

(** Thirty-two zero bytes give forty-three [A]. *)
Example generate_reset_token_of_zero_bytes :
  fst (generate_reset_token Demo.env Demo.world0) = inr DemoReset.token.
Proof. reflexivity. Qed.

(** The custom-email endpoint on a complete body, and on one whose
    [html_content] is a list holding a falsy element: the only bodies it
    answers with 400 are of this kind. *)
Example send_custom_email_runs :
  fst (send_custom_email Demo.env Demo.cfg
         (PDict [("to_email", to_email); ("subject", subject);
                 ("html_content", html)]) Demo.world0)
  = inr ([("status", PStr "sent"); ("message", PStr "Email sent successfully")],
         200%Z)
  /\ send_custom_email Demo.env Demo.cfg
       (PDict [("to_email", to_email); ("subject", subject);
               ("html_content", PList [PInt 0])]) Demo.world0
     = (inr ([("error", PStr "to_email, subject, and html_content are required")],
             400%Z),
        Demo.world0).
Proof. split; reflexivity. Qed.

End Scenarios.

(* ===================================================================== *)
(** * Further properties of the code                                      *)
(* ===================================================================== *)

(** ** One call of [send_email], in full *)

Section SendEmailOutcome.
Variable E : Env.
Variable self : EmailService.

(** Every run of [send_email], with what it printed and what it exchanged
    with the SMTP endpoint: it returned [True] after a whole session; or it
    caught an exception and printed its error line; or it caught an exception
    and raised what standard output raised on that line. *)
Lemma send_email_outcome to_email subject html_content text_content w :
  exists l : list smtp_event,
    session self l
    /\ (forall m, In (EvSendMessage m) l ->
                  compose_message E self to_email subject html_content text_content
                  = inr m)
    /\ ((exists msg,
            send_email E self to_email subject html_content text_content w
            = (inr true,
               mkWorld (stdout w ++ [sent_line E to_email]) (smtp_log w ++ l)
                       (entropy_used w))
            /\ compose_message E self to_email subject html_content text_content
               = inr msg
            /\ l = [EvConnect (smtp_server self) (smtp_port self);
                    EvLogin (admin_email self) (admin_password self);
                    EvSendMessage msg; EvQuit])
        \/ (exists e,
               send_email E self to_email subject html_content text_content w
               = (inr false,
                  mkWorld (stdout w ++ [error_line E to_email e]) (smtp_log w ++ l)
                          (entropy_used w)))
        \/ (exists e e',
               first_failure E self to_email subject html_content text_content
                             (smtp_log w) = Some e
               /\ stdout_encode_error E (error_line E to_email e) = Some e'
               /\ send_email E self to_email subject html_content text_content w
                  = (inl e',
                     mkWorld (stdout w) (smtp_log w ++ l) (entropy_used w)))).
Proof.
  exists (exchanged E self to_email subject html_content text_content (smtp_log w)).
  split; [apply exchanged_session |]. split.
  { unfold exchanged.
    destruct (compose_message E self _ _ _ _) as [e | msg]; [intros m [] |].
    destruct (smtp_connect E _ _ _).
    { intros m [H | []]. discriminate H. }
    destruct (smtp_login E _ _ _).
    { intros m [H | [H | [H | []]]]; discriminate H. }
    intros m [H | [H | [H | [H | []]]]]; try discriminate H.
    injection H as <-. reflexivity. }
  rewrite send_email_run. cbv zeta.
  destruct (first_failure E self _ _ _ _ _) as [e |] eqn:Hf.
  - destruct (stdout_encode_error E (error_line E to_email e)) as [e' |] eqn:Hp.
    + right. right. exists e, e'.
      split; [reflexivity |]. split; [exact Hp | reflexivity].
    + right. left. exists e. reflexivity.
  - destruct (first_failure_none E self _ _ _ _ _ Hf)
      as (msg & Hc & _ & _ & _ & _ & _ & Hx).
    left. exists msg. split; [reflexivity |]. split; assumption.
Qed.

(** X1. The conversation of one [send_email] call with the SMTP endpoint is
    one of: nothing; a refused connection; connection, login, close;
    connection, login, message, close.  It always goes to the configured host
    and port with the configured credentials.  A message is handed over
    exactly when the message composed and both the connection and the login
    were accepted, and the session is closed exactly when the connection was
    opened, whatever failed afterwards. *)
Theorem send_email_session_is_authenticated_and_closed
        (to_email subject html_content text_content : pyval) (w : world) :
  let run := send_email E self to_email subject html_content text_content w in
  let connected :=
    smtp_connect E (smtp_log w) (smtp_server self) (smtp_port self) = None in
  let logged_in :=
    smtp_login E (smtp_log w ++ [EvConnect (smtp_server self) (smtp_port self)])
               (admin_email self) (admin_password self) = None in
  exists l,
    smtp_log (snd run) = smtp_log w ++ l
    /\ session self l
    /\ ((exists m, In (EvSendMessage m) l) <->
        (exists msg,
            compose_message E self to_email subject html_content text_content
            = inr msg)
        /\ connected /\ logged_in)
    /\ (In EvQuit l <->
        (exists msg,
            compose_message E self to_email subject html_content text_content
            = inr msg)
        /\ connected).
Proof.
  cbv zeta. rewrite send_email_log.
  exists (exchanged E self to_email subject html_content text_content (smtp_log w)).
  split; [reflexivity |]. split; [apply exchanged_session |].
  unfold exchanged.
  destruct (compose_message E self to_email subject html_content text_content)
    as [e | msg] eqn:Hc.
  { split; split.
    + intros (m & []).
    + intros ((m & Hm) & _). discriminate.
    + intros [].
    + intros ((m & Hm) & _). discriminate. }
  destruct (smtp_connect E _ _ _) as [e |] eqn:H1; simpl.
  { split; split.
    - intros (m & [H | []]). discriminate.
    - intros (_ & H & _). discriminate.
    - intros [H | []]. discriminate.
    - intros (_ & H). discriminate. }
  destruct (smtp_login E _ _ _) as [e |] eqn:H2; simpl.
  { split; split.
    - intros (m & [H | [H | [H | []]]]); discriminate.
    - intros (_ & _ & H). discriminate.
    - intros _. split; [exists msg |]; reflexivity.
    - intros _. simpl. auto. }
  split; split.
  - intros _. split; [exists msg; reflexivity | split; reflexivity].
  - intros _. exists msg. simpl. auto.
  - intros _. split; [exists msg |]; reflexivity.
  - intros _. simpl. auto.
Qed.

(** X2. A call of [send_email] draws no entropy and prints at most one line,
    which names the recipient.  When its [try] block ran to the end it
    returns [True], having printed the success line.  When the block raised
    [e] (what composing raised, else what the connection raised, else what
    QUIT raised, else what the login or the transmission raised, else what
    printing the success line raised), it prints the error line with the text
    of [e] and returns [False]; when standard output cannot write that line,
    nothing is printed and the call raises what [print] raised. *)
Theorem send_email_prints_the_line_of_its_outcome
        (to_email subject html_content text_content : pyval) (w : world) :
  let run := send_email E self to_email subject html_content text_content w in
  entropy_used (snd run) = entropy_used w
  /\ match first_failure E self to_email subject html_content text_content
                         (smtp_log w) with
     | None =>
         fst run = inr true
         /\ stdout (snd run)
            = stdout w ++ [("Email sent successfully to "
                              ++ py_str E to_email)%string]
     | Some e =>
         let line :=
           ("Error sending email to " ++ py_str E to_email ++ ": "
              ++ exn_str e)%string in
         match stdout_encode_error E line with
         | None => fst run = inr false /\ stdout (snd run) = stdout w ++ [line]
         | Some e' => fst run = inl e' /\ stdout (snd run) = stdout w
         end
     end.
Proof.
  cbv zeta. rewrite send_email_run. cbv zeta.
  destruct (first_failure E self _ _ _ _ _) as [e |].
  - fold (error_line E to_email e).
    destruct (stdout_encode_error E (error_line E to_email e));
      repeat split; reflexivity.
  - repeat split; reflexivity.
Qed.

(** X3. The recipient and the subject reach the message as they were given:
    every message a call hands to the transmitter has [To] equal to
    [to_email] and [Subject] equal to [subject], whatever values those are;
    nothing is checked or rewritten on the way. *)
Theorem send_email_passes_recipient_and_subject_through
        (to_email subject html_content text_content : pyval) (w : world) :
  Forall
    (fun m => get_header m "To" = Some to_email
              /\ get_header m "Subject" = Some subject)
    (new_sends w
       (snd (send_email E self to_email subject html_content text_content w))).
Proof.
  apply Forall_forall. intros m Hin.
  apply send_email_in_new_sends in Hin.
  apply compose_message_inv in Hin.
  destruct Hin as (_ & _ & _ & Hh & _).
  unfold get_header. rewrite Hh. split; reflexivity.
Qed.

(** X4. A content that is not a str stops the call before the network.
    Let [v] be [text_content] when it is truthy and not a str, or
    [html_content] when it is not a str and the text part, if there is one,
    was built.  Then the exception caught is the [AttributeError] of [v], and
    nothing is exchanged with the SMTP endpoint.  The call prints the error
    line and returns [False]; when standard output cannot write that line, it
    raises what [print] raised and the world is as it was. *)
Theorem send_email_content_not_a_str_stops_before_the_network
        (to_email subject html_content text_content v : pyval) (w : world) :
  (truthy text_content = true /\ is_str text_content = false
   /\ v = text_content)
  \/ (is_str html_content = false /\ v = html_content
      /\ (truthy text_content = true ->
          exists part,
            new_MIMEText (text_encode_error E) text_content "plain" = inr part)) ->
  let line := error_line E to_email (AttributeError v "encode") in
  send_email E self to_email subject html_content text_content w
  = match stdout_encode_error E line with
    | None =>
        (inr false,
         mkWorld (stdout w ++ [line]) (smtp_log w) (entropy_used w))
    | Some e' => (inl e', w)
    end.
Proof.
  intros H. cbv zeta. apply send_email_not_composed.
  unfold compose_message.
  destruct H as [(Ht & Hs & ->) | (Hs & -> & Hpart)].
  - rewrite Ht. destruct text_content; try discriminate Hs; reflexivity.
  - destruct (truthy text_content).
    + destruct (Hpart eq_refl) as (part & ->).
      destruct html_content; try discriminate Hs; reflexivity.
    + destruct html_content; try discriminate Hs; reflexivity.
Qed.

End SendEmailOutcome.

(** X4 on a page given as a list, no text: the call is decided by what
    standard output makes of the line of the [AttributeError]. *)
Lemma send_email_content_not_a_str_stops_before_the_network_witness :
  (is_str (PList [PInt 1]) = false /\ PList [PInt 1] = PList [PInt 1]
   /\ (truthy PNone = true ->
       exists part,
         new_MIMEText (text_encode_error Demo.env) PNone "plain" = inr part))
  /\ send_email Demo.env Demo.service (PStr "a@b.com") (PStr "s")
       (PList [PInt 1]) PNone Demo.world0
     = match stdout_encode_error Demo.env
               (error_line Demo.env (PStr "a@b.com")
                  (AttributeError (PList [PInt 1]) "encode")) with
       | None =>
           (inr false,
            mkWorld (stdout Demo.world0
                       ++ [error_line Demo.env (PStr "a@b.com")
                             (AttributeError (PList [PInt 1]) "encode")])
                    (smtp_log Demo.world0) (entropy_used Demo.world0))
       | Some e' => (inl e', Demo.world0)
       end.
Proof.
  assert (H : is_str (PList [PInt 1]) = false /\ PList [PInt 1] = PList [PInt 1]
              /\ (truthy PNone = true ->
                  exists part,
                    new_MIMEText (text_encode_error Demo.env) PNone "plain"
                    = inr part)).
  { split; [reflexivity |]. split; [reflexivity |]. intros Ht. discriminate Ht. }
  split; [exact H |].
  exact (send_email_content_not_a_str_stops_before_the_network
           Demo.env Demo.service (PStr "a@b.com") (PStr "s")
           (PList [PInt 1]) PNone (PList [PInt 1]) Demo.world0 (or_intror H)).
Defined.

(** ** Every request, in full *)

Section Answers.
Variable E : Env.
Variable cfg : Config.

Ltac solve_grows :=
  unfold grows; simpl; repeat split;
  first [ reflexivity
        | rewrite app_nil_r; reflexivity
        | rewrite Nat.add_0_r; reflexivity ].

Lemma not_validated_not_dict r data :
  is_dict data = false -> ~ (r = POST_send_password_reset /\ validated data).
Proof. intros H (_ & d & -> & _). discriminate H. Qed.

Lemma not_validated_falsy r d :
  negb (truthy (dict_get d "email" PNone))
  || negb (truthy (dict_get d "username" PNone)) = true ->
  ~ (r = POST_send_password_reset /\ validated (PDict d)).
Proof.
  intros H (_ & d' & Hd & He & Hu). injection Hd as <-.
  rewrite He, Hu in H. discriminate H.
Qed.

Lemma not_reset_draws_nothing r data :
  r <> POST_send_password_reset -> draws r data 0.
Proof. intros H. right. split; [reflexivity |]. intros (Hr & _). auto. Qed.

Lemma generate_reset_token_run w :
  generate_reset_token E w
  = (inr (Secrets.encode_token (map (os_entropy E) (seq (entropy_used w) 32))),
     mkWorld (stdout w) (smtp_log w) (entropy_used w + 32)).
Proof. reflexivity. Qed.

Lemma send_password_reset_answered data w :
  exists resp w',
    send_password_reset E cfg data w = (inr resp, w')
    /\ answered E cfg POST_send_password_reset data w resp w'.
Proof.
  destruct data as [| b | n | s | l | d];
    try (do 2 eexists; split; [reflexivity |];
         eapply answered_raised with (out := [_]) (drawn := 0);
         [ discriminate
         | right; split; [reflexivity | apply not_validated_not_dict; reflexivity]
         | solve_grows
         | simpl; lia ]).
  cbv [send_password_reset try_except bind lift py_get ret].
  destruct (negb (truthy (dict_get d "email" PNone))
            || negb (truthy (dict_get d "username" PNone))) eqn:Hv.
  { do 2 eexists. split; [reflexivity |].
    apply answered_400; [discriminate |].
    right. split; [reflexivity |]. apply not_validated_falsy. exact Hv. }
  assert (Hval : validated (PDict d)).
  { exists d. apply orb_false_elim in Hv. destruct Hv as [He Hu].
    apply negb_false_iff in He. apply negb_false_iff in Hu. auto. }
  rewrite generate_reset_token_run.
  set (t := Secrets.encode_token _).
  set (w1 := mkWorld (stdout w) (smtp_log w) (entropy_used w + 32)).
  cbv [send_password_reset_email render_template bind lift].
  destruct (get_template E "password_reset.html") as [e | template].
  { do 2 eexists. split; [reflexivity |].
    eapply answered_raised with (out := [_]) (drawn := 32);
      [discriminate | left; auto | solve_grows | simpl; lia]. }
  destruct (template _) as [e | html].
  { do 2 eexists. split; [reflexivity |].
    eapply answered_raised with (out := [_]) (drawn := 32);
      [discriminate | left; auto | solve_grows | simpl; lia]. }
  match goal with
  | |- context [send_email E ?svc ?a ?b ?c ?d w1] =>
      destruct (send_email_outcome E svc a b c d w1)
        as (l & Hsess & _
            & [(msg & Hrun & _ & ->)
              | [(e & Hrun) | (e & e' & Hfirst & Hprint & Hrun)]])
  end; rewrite Hrun.
  - do 2 eexists. split; [reflexivity |].
    eapply answered_sent with (t := t) (drawn := 32);
      [reflexivity | left; auto | solve_grows | reflexivity].
  - do 2 eexists. split; [reflexivity |].
    eapply answered_failed with (drawn := 32);
      [reflexivity | left; auto | solve_grows | exact Hsess].
  - do 2 eexists. split; [reflexivity |].
    eapply answered_escaped with (out := [_]) (drawn := 32);
      [ discriminate | left; auto | exact Hfirst | exact Hprint
      | solve_grows | simpl; lia | exact Hsess ].
Qed.

Lemma send_reset_success_answered data w :
  exists resp w',
    send_reset_success E cfg data w = (inr resp, w')
    /\ answered E cfg POST_send_reset_success data w resp w'.
Proof.
  destruct data as [| b | n | s | l | d];
    try (do 2 eexists; split; [reflexivity |];
         eapply answered_raised with (out := [_]) (drawn := 0);
         [ discriminate
         | apply not_reset_draws_nothing; discriminate
         | solve_grows
         | simpl; lia ]).
  cbv [send_reset_success try_except bind lift py_get ret].
  destruct (negb (truthy (dict_get d "email" PNone))
            || negb (truthy (dict_get d "username" PNone))) eqn:Hv.
  { do 2 eexists. split; [reflexivity |].
    apply answered_400; [discriminate |].
    apply not_reset_draws_nothing. discriminate. }
  cbv [send_password_reset_success_email render_template bind lift].
  destruct (get_template E "password_reset_success.html") as [e | template].
  { do 2 eexists. split; [reflexivity |].
    eapply answered_raised with (out := [_]) (drawn := 0);
      [ discriminate | apply not_reset_draws_nothing; discriminate
      | solve_grows | simpl; lia ]. }
  destruct (template _) as [e | html].
  { do 2 eexists. split; [reflexivity |].
    eapply answered_raised with (out := [_]) (drawn := 0);
      [ discriminate | apply not_reset_draws_nothing; discriminate
      | solve_grows | simpl; lia ]. }
  match goal with
  | |- context [send_email E ?svc ?a ?b ?c ?d w] =>
      destruct (send_email_outcome E svc a b c d w)
        as (l & Hsess & _
            & [(msg & Hrun & _ & ->)
              | [(e & Hrun) | (e & e' & Hfirst & Hprint & Hrun)]])
  end; rewrite Hrun.
  - do 2 eexists. split; [reflexivity |].
    eapply answered_sent with (t := "") (drawn := 0);
      [ reflexivity | apply not_reset_draws_nothing; discriminate
      | solve_grows | discriminate ].
  - do 2 eexists. split; [reflexivity |].
    eapply answered_failed with (drawn := 0);
      [ reflexivity | apply not_reset_draws_nothing; discriminate
      | solve_grows | exact Hsess ].
  - do 2 eexists. split; [reflexivity |].
    eapply answered_escaped with (out := [_]) (drawn := 0);
      [ discriminate | apply not_reset_draws_nothing; discriminate
      | exact Hfirst | exact Hprint
      | solve_grows | simpl; lia | exact Hsess ].
Qed.

Lemma send_custom_email_answered data w :
  exists resp w',
    send_custom_email E cfg data w = (inr resp, w')
    /\ answered E cfg POST_send_custom_email data w resp w'.
Proof.
  destruct data as [| b | n | s | l | d];
    try (do 2 eexists; split; [reflexivity |];
         eapply answered_raised with (out := []) (drawn := 0);
         [ discriminate
         | apply not_reset_draws_nothing; discriminate
         | solve_grows
         | simpl; lia ]).
  cbv [send_custom_email try_except bind lift py_get ret].
  destruct (py_all _) as [e | complete].
  { do 2 eexists. split; [reflexivity |].
    eapply answered_raised with (out := []) (drawn := 0);
      [ discriminate | apply not_reset_draws_nothing; discriminate
      | solve_grows | simpl; lia ]. }
  destruct complete; cbn [negb].
  2:{ do 2 eexists. split; [reflexivity |].
      apply answered_400; [discriminate |].
      apply not_reset_draws_nothing. discriminate. }
  match goal with
  | |- context [send_email E ?svc ?a ?b ?c ?d w] =>
      destruct (send_email_outcome E svc a b c d w)
        as (l & Hsess & _
            & [(msg & Hrun & _ & ->)
              | [(e & Hrun) | (e & e' & Hfirst & Hprint & Hrun)]])
  end; rewrite Hrun.
  - do 2 eexists. split; [reflexivity |].
    eapply answered_sent with (t := "") (drawn := 0);
      [ reflexivity | apply not_reset_draws_nothing; discriminate
      | solve_grows | discriminate ].
  - do 2 eexists. split; [reflexivity |].
    eapply answered_failed with (drawn := 0);
      [ reflexivity | apply not_reset_draws_nothing; discriminate
      | solve_grows | exact Hsess ].
  - do 2 eexists. split; [reflexivity |].
    eapply answered_escaped with (out := []) (drawn := 0);
      [ discriminate | apply not_reset_draws_nothing; discriminate
      | exact Hfirst | exact Hprint
      | solve_grows | simpl; lia | exact Hsess ].
Qed.

Lemma test_email_answered data w :
  exists resp w',
    test_email E cfg data w = (inr resp, w')
    /\ answered E cfg POST_test data w resp w'.
Proof.
  destruct data as [| b | n | s | l | d];
    try (do 2 eexists; split; [reflexivity |];
         eapply answered_raised with (out := []) (drawn := 0);
         [ discriminate
         | apply not_reset_draws_nothing; discriminate
         | solve_grows
         | simpl; lia ]).
  cbv [test_email try_except bind lift py_get ret].
  match goal with
  | |- context [send_email E ?svc ?a ?b ?c ?d w] =>
      destruct (send_email_outcome E svc a b c d w)
        as (l & Hsess & _
            & [(msg & Hrun & _ & ->)
              | [(e & Hrun) | (e & e' & Hfirst & Hprint & Hrun)]])
  end; rewrite Hrun.
  - do 2 eexists. split; [reflexivity |].
    eapply answered_sent with (t := "") (drawn := 0);
      [ reflexivity | apply not_reset_draws_nothing; discriminate
      | solve_grows | discriminate ].
  - do 2 eexists. split; [reflexivity |].
    eapply answered_failed with (drawn := 0);
      [ reflexivity | apply not_reset_draws_nothing; discriminate
      | solve_grows | exact Hsess ].
  - do 2 eexists. split; [reflexivity |].
    eapply answered_escaped with (out := []) (drawn := 0);
      [ discriminate | apply not_reset_draws_nothing; discriminate
      | exact Hfirst | exact Hprint
      | solve_grows | simpl; lia | exact Hsess ].
Qed.

(** However a request is routed, it is answered in one of the six ways. *)
Lemma dispatch_answered r data w :
  exists resp w',
    dispatch E cfg r data w = (inr resp, w') /\ answered E cfg r data w resp w'.
Proof.
  destruct r; simpl.
  - apply send_password_reset_answered.
  - apply send_reset_success_answered.
  - do 2 eexists. split; [reflexivity |]. apply answered_health. reflexivity.
  - apply send_custom_email_answered.
  - apply test_email_answered.
Qed.

End Answers.

(** ** What every endpoint guarantees *)

Section EndpointGuarantees.
Variable E : Env.
Variable cfg : Config.

Lemma failure_response_status r resp :
  failure_response r = Some resp ->
  r <> GET_health /\ status resp = 500%Z
  /\ exists msg, resp = ([("error", PStr msg)], 500%Z).
Proof.
  destruct r; simpl; intros H; try discriminate; injection H as <-;
    (split; [discriminate |]; split; [reflexivity |]; eexists; reflexivity).
Qed.

Lemma success_response_status r t resp :
  success_response r t = Some resp ->
  r <> GET_health /\ status resp = 200%Z
  /\ dict_get (body resp) "status" PNone = PStr "sent"
  /\ dict_get (body resp) "error" PNone = PNone
  /\ (r = POST_send_password_reset ->
      dict_get (body resp) "token" PNone = PStr t).
Proof.
  destruct r; simpl; intros H; try discriminate; injection H as <-;
    (split; [discriminate |]; repeat split; try reflexivity; discriminate).
Qed.

(** X5. On every POST route, a JSON body that is not an object (a list, a
    string, a number, [null]) is answered 500 with the text of the
    [AttributeError] that [data.get] raised; nothing is exchanged with the
    SMTP endpoint and no token is drawn. *)
Theorem body_that_is_not_an_object_is_answered_500
        (r : route) (data : pyval) (w : world) :
  r <> GET_health -> is_dict data = false ->
  let run := dispatch E cfg r data w in
  fst run
  = inr ([("error",
           PStr ("'" ++ type_name data ++ "' object has no attribute 'get'"))],
         500%Z)
  /\ smtp_log (snd run) = smtp_log w
  /\ entropy_used (snd run) = entropy_used w.
Proof.
  intros Hr Hd. cbv zeta.
  destruct r; try (exfalso; apply Hr; reflexivity);
    destruct data; try discriminate Hd; repeat split; reflexivity.
Qed.

(** X6. No endpoint lets an exception out: every request gets a response.
    Its status is 200, 400 or 500; a 200 body has a [status] field and no
    [error] field; a 400 or 500 body is exactly one [error] field holding a
    string. *)
Theorem every_request_is_answered_200_400_or_500
        (r : route) (data : pyval) (w : world) :
  exists resp w',
    dispatch E cfg r data w = (inr resp, w')
    /\ ((status resp = 200%Z
         /\ dict_get (body resp) "error" PNone = PNone
         /\ exists s, dict_get (body resp) "status" PNone = PStr s)
        \/ ((status resp = 400%Z \/ status resp = 500%Z)
            /\ exists msg, body resp = [("error", PStr msg)])).
Proof.
  destruct (dispatch_answered E cfg r data w) as (resp & w' & Hrun & Ha).
  exists resp, w'. split; [exact Hrun |].
  destruct Ha as [Hr | msg Hr Hd | e w' out drawn Hr Hd Hg Hl
                  | resp w' to e l drawn Hf Hd Hg Hs
                  | resp w' t to msg drawn Hs Hd Hg Ht
                  | e e' w' subject html text out l drawn
                      Hr Hd Hfirst Hprint Hg Hl Hs].
  - left. repeat split. eexists. reflexivity.
  - right. split; [left; reflexivity | eexists; reflexivity].
  - right. split; [right; reflexivity | eexists; reflexivity].
  - apply failure_response_status in Hf. destruct Hf as (_ & Hst & msg & ->).
    right. split; [right; reflexivity | eexists; reflexivity].
  - apply success_response_status in Hs.
    destruct Hs as (_ & Hst & Hsent & Herr & _).
    left. split; [exact Hst |]. split; [exact Herr |]. eexists. exact Hsent.
  - right. split; [right; reflexivity | eexists; reflexivity].
Qed.

(** X7. A request answered 400 changed nothing: nothing printed, nothing
    exchanged with the SMTP endpoint, no token drawn. *)
Theorem answer_400_leaves_the_world_unchanged
        (r : route) (data : pyval) (w w' : world) (resp : response) :
  dispatch E cfg r data w = (inr resp, w') ->
  status resp = 400%Z ->
  w' = w.
Proof.
  intros Hrun Hst.
  destruct (dispatch_answered E cfg r data w) as (resp0 & w0 & Hrun0 & Ha).
  rewrite Hrun in Hrun0. injection Hrun0 as <- <-.
  destruct Ha as [Hr | msg Hr Hd | e w' out drawn Hr Hd Hg Hl
                  | resp w' to e l drawn Hf Hd Hg Hs
                  | resp w' t to msg drawn Hs Hd Hg Ht
                  | e e' w' subject html text out l drawn
                      Hr Hd Hfirst Hprint Hg Hl Hs].
  - discriminate Hst.
  - reflexivity.
  - discriminate Hst.
  - apply failure_response_status in Hf. destruct Hf as (_ & Hf & _).
    rewrite Hf in Hst. discriminate Hst.
  - apply success_response_status in Hs. destruct Hs as (_ & Hs & _).
    rewrite Hs in Hst. discriminate Hst.
  - discriminate Hst.
Qed.

(** X8. A POST request answered 200 handed exactly one message to the
    transmitter, in one session that was opened, authenticated and closed,
    and the last thing it printed is the success line of [send_email]. *)
Theorem post_answered_200_handed_exactly_one_message
        (r : route) (data : pyval) (w w' : world) (resp : response) :
  dispatch E cfg r data w = (inr resp, w') ->
  status resp = 200%Z ->
  r <> GET_health ->
  exists msg to_email,
    new_sends w w' = [msg]
    /\ smtp_log w'
       = smtp_log w
         ++ [EvConnect (MAIL_SERVER cfg) (MAIL_PORT cfg);
             EvLogin (of_environ (ADMIN_EMAIL cfg))
                     (of_environ (ADMIN_PASSWORD cfg));
             EvSendMessage msg; EvQuit]
    /\ stdout w'
       = stdout w ++ [("Email sent successfully to " ++ py_str E to_email)%string].
Proof.
  intros Hrun Hst Hr.
  destruct (dispatch_answered E cfg r data w) as (resp0 & w0 & Hrun0 & Ha).
  rewrite Hrun in Hrun0. injection Hrun0 as <- <-.
  destruct Ha as [Hr' | msg Hr' Hd | e w' out drawn Hr' Hd Hg Hl
                  | resp w' to e l drawn Hf Hd Hg Hs
                  | resp w' t to msg drawn Hs Hd Hg Ht
                  | e e' w' subject html text out l drawn
                      Hr' Hd Hfirst Hprint Hg Hl Hs].
  - contradiction.
  - discriminate Hst.
  - discriminate Hst.
  - apply failure_response_status in Hf. destruct Hf as (_ & Hf & _).
    rewrite Hf in Hst. discriminate Hst.
  - destruct Hg as (Hout & Hlog & _).
    exists msg, to. split; [| split; [exact Hlog | exact Hout]].
    rewrite (new_sends_extension _ _ _ Hlog). reflexivity.
  - discriminate Hst.
Qed.

(** X9. Whatever the route and the body, a request has at most one SMTP
    session, and only with the configured server and credentials: what it
    appends to the conversation is nothing, a refused connection to
    [MAIL_SERVER:MAIL_PORT], or a connection followed by a login with
    [ADMIN_EMAIL] and [ADMIN_PASSWORD], at most one message, and the close. *)
Theorem request_has_at_most_one_session_with_the_configured_server
        (r : route) (data : pyval) (w : world) :
  let connect := EvConnect (MAIL_SERVER cfg) (MAIL_PORT cfg) in
  let login :=
    EvLogin (of_environ (ADMIN_EMAIL cfg)) (of_environ (ADMIN_PASSWORD cfg)) in
  exists l,
    smtp_log (snd (dispatch E cfg r data w)) = smtp_log w ++ l
    /\ (l = []
        \/ l = [connect]
        \/ l = [connect; login; EvQuit]
        \/ exists msg, l = [connect; login; EvSendMessage msg; EvQuit]).
Proof.
  cbv zeta.
  destruct (dispatch_answered E cfg r data w) as (resp & w' & Hrun & Ha).
  rewrite Hrun. simpl.
  destruct Ha as [Hr | msg Hr Hd | e w' out drawn Hr Hd Hg Hl
                  | resp w' to e l drawn Hf Hd Hg Hs
                  | resp w' t to msg drawn Hs Hd Hg Ht
                  | e e' w' subject html text out l drawn
                      Hr Hd Hfirst Hprint Hg Hl Hs].
  - exists []. rewrite app_nil_r. auto.
  - exists []. rewrite app_nil_r. auto.
  - exists []. destruct Hg as (_ & Hlog & _). auto.
  - exists l. destruct Hg as (_ & Hlog & _). split; [exact Hlog |].
    destruct Hs as [| | | msg]; [auto | auto | auto |].
    right. right. right. exists msg. reflexivity.
  - eexists. destruct Hg as (_ & Hlog & _). split; [exact Hlog |].
    right. right. right. exists msg. reflexivity.
  - exists l. destruct Hg as (_ & Hlog & _). split; [exact Hlog |].
    destruct Hs as [| | | msg]; [auto | auto | auto |].
    right. right. right. exists msg. reflexivity.
Qed.

(** X10. Entropy is drawn by the password-reset route only, and only once
    the body is validated: then the request draws exactly 32 bytes, whether
    or not the email is sent afterwards; every other request draws none. *)
Theorem only_a_validated_password_reset_draws_entropy
        (r : route) (data : pyval) (w : world) :
  let w' := snd (dispatch E cfg r data w) in
  (entropy_used w' = entropy_used w + 32
   /\ r = POST_send_password_reset
   /\ exists d,
       data = PDict d
       /\ truthy (dict_get d "email" PNone) = true
       /\ truthy (dict_get d "username" PNone) = true)
  \/ (entropy_used w' = entropy_used w
      /\ ~ (r = POST_send_password_reset
            /\ exists d,
                data = PDict d
                /\ truthy (dict_get d "email" PNone) = true
                /\ truthy (dict_get d "username" PNone) = true)).
Proof.
  cbv zeta.
  destruct (dispatch_answered E cfg r data w) as (resp & w' & Hrun & Ha).
  rewrite Hrun. simpl.
  assert (Hdraw : forall drawn out l,
             draws r data drawn -> grows w w' out l drawn ->
             (entropy_used w' = entropy_used w + 32
              /\ r = POST_send_password_reset /\ validated data)
             \/ (entropy_used w' = entropy_used w
                 /\ ~ (r = POST_send_password_reset /\ validated data))).
  { intros drawn out l [(-> & Hr & Hv) | (-> & Hn)] (_ & _ & Hent).
    - left. auto.
    - right. rewrite Nat.add_0_r in Hent. auto. }
  destruct Ha as [Hr | msg Hr Hd | e w' out drawn Hr Hd Hg Hl
                  | resp w' to e l drawn Hf Hd Hg Hs
                  | resp w' t to msg drawn Hs Hd Hg Ht
                  | e e' w' subject html text out l drawn
                      Hr Hd Hfirst Hprint Hg Hl Hs].
  - right. split; [reflexivity |]. intros (H & _). rewrite Hr in H.
    discriminate H.
  - destruct Hd as [(H & _) | (_ & Hn)]; [discriminate H |].
    right. split; [reflexivity | exact Hn].
  - exact (Hdraw _ _ _ Hd Hg).
  - exact (Hdraw _ _ _ Hd Hg).
  - exact (Hdraw _ _ _ Hd Hg).
  - exact (Hdraw _ _ _ Hd Hg).
Qed.


End EndpointGuarantees.

(** ** What each route puts in the message *)

Section RouteMessages.
Variable E : Env.
Variable cfg : Config.

Lemma sends_only_composed self to_email subject html_content text_content :
  sends_only
    (fun m =>
       compose_message E self to_email subject html_content text_content = inr m)
    (send_email E self to_email subject html_content text_content).
Proof.
  intros w.
  destruct (send_email_new_sends E self
              to_email subject html_content text_content w)
    as (l & Hl & [Hs | (msg & Hc & Hs)]);
    exists l; (split; [exact Hl |]); rewrite Hs; constructor; auto.
Qed.

Lemma sends_only_weaken {A} (P Q : MIMEMultipart -> Prop) (m : M A) :
  (forall msg, P msg -> Q msg) -> sends_only P m -> sends_only Q m.
Proof.
  intros HPQ Hm w. destruct (Hm w) as (l & Hl & Hf).
  exists l. split; [exact Hl |]. eapply Forall_impl; eauto.
Qed.

Lemma sends_only_new_sends {A} (P : MIMEMultipart -> Prop) (m : M A) w :
  sends_only P m -> Forall P (new_sends w (snd (m w))).
Proof.
  intros Hm. destruct (Hm w) as (l & Hl & Hf).
  rewrite (new_sends_extension _ _ l Hl). exact Hf.
Qed.

Lemma bind_lift_inr {A B} (a : A) (k : A -> M B) : bind (lift (inr a)) k = k a.
Proof. reflexivity. Qed.

Ltac read_fields :=
  cbn [py_get]; repeat (rewrite bind_lift_inr; cbv beta).

(** What a composed message holds, part by part. *)
Lemma compose_message_contents self to_email subject html text msg :
  compose_message E self to_email subject (PStr html) text = inr msg ->
  get_header msg "To" = Some to_email
  /\ get_header msg "Subject" = Some subject
  /\ (if truthy text then
        exists t,
          text = PStr t
          /\ map text_subtype (payload msg) = ["plain"; "html"]
          /\ map text_payload (payload msg) = [t; html]
      else
        map text_subtype (payload msg) = ["html"]
        /\ map text_payload (payload msg) = [html]).
Proof.
  intros H. apply compose_message_inv in H.
  destruct H as (hp & Hh & _ & Hhd & Hp).
  unfold get_header. rewrite Hhd. split; [reflexivity |].
  split; [reflexivity |].
  apply new_MIMEText_inv in Hh. destruct Hh as (h & Heq & ->).
  injection Heq as <-.
  destruct (truthy text).
  - destruct Hp as (tp & Htp & ->).
    apply new_MIMEText_inv in Htp. destruct Htp as (t & -> & ->).
    exists t. repeat split.
  - rewrite Hp. split; reflexivity.
Qed.

(** X12. A custom email is sent as HTML only: every message the
    custom-email route hands to the transmitter has the body's [to_email] as
    [To], the body's [subject] as [Subject], and exactly one part, the HTML
    part holding the body's [html_content]; there is never a plain-text
    part. *)
Theorem send_custom_email_sends_the_html_part_alone
        (d : list (string * pyval)) (w : world) :
  Forall
    (fun m =>
       get_header m "To" = Some (dict_get d "to_email" PNone)
       /\ get_header m "Subject" = Some (dict_get d "subject" PNone)
       /\ exists html,
           dict_get d "html_content" PNone = PStr html
           /\ map text_subtype (payload m) = ["html"]
           /\ map text_payload (payload m) = [html])
    (new_sends w (snd (send_custom_email E cfg (PDict d) w))).
Proof.
  apply sends_only_new_sends.
  apply sends_only_weaken
    with (P := fun m =>
                 compose_message E (email_service cfg)
                   (dict_get d "to_email" PNone) (dict_get d "subject" PNone)
                   (dict_get d "html_content" PNone) PNone = inr m).
  - intros m Hc.
    destruct (dict_get d "html_content" PNone) as [| | | html | |] eqn:Hh;
      try (apply compose_message_inv in Hc;
           destruct Hc as (hp & Hc & _); discriminate Hc).
    apply compose_message_contents in Hc. destruct Hc as (Hto & Hsub & Hp).
    split; [exact Hto |]. split; [exact Hsub |].
    exists html. split; [reflexivity | exact Hp].
  - pose proof (sends_only_composed (email_service cfg)).
    unfold send_custom_email. read_fields. auto 20 with sends.
Qed.

(** X13. The test route does not validate its recipient: every message it
    hands to the transmitter is addressed to the body's [email] as it is, or
    to [test@example.com] when the body has no [email], and carries the fixed
    test subject, the fixed plain text and then the fixed HTML. *)
Theorem test_email_defaults_the_recipient_and_sends_fixed_content
        (d : list (string * pyval)) (w : world) :
  Forall
    (fun m =>
       get_header m "To" = Some (dict_get d "email" (PStr "test@example.com"))
       /\ get_header m "Subject"
          = Some (PStr "Test Email - Computer Networks Program")
       /\ payload m
          = [mkMIMEText "plain" "us-ascii"
               ("Test Email" ++ nl ++ nl
                  ++ "This is a test email from the email service.");
             mkMIMEText "html" "us-ascii"
               "<h1>Test Email</h1><p>This is a test email from the email service.</p>"])
    (new_sends w (snd (test_email E cfg (PDict d) w))).
Proof.
  apply sends_only_new_sends.
  apply sends_only_weaken
    with (P := fun m =>
                 compose_message E (email_service cfg)
                   (dict_get d "email" (PStr "test@example.com"))
                   (PStr "Test Email - Computer Networks Program")
                   (PStr "<h1>Test Email</h1><p>This is a test email from the email service.</p>")
                   (PStr ("Test Email" ++ nl ++ nl
                          ++ "This is a test email from the email service."))
                 = inr m);
    [| pose proof (sends_only_composed (email_service cfg));
       unfold test_email; read_fields; auto 20 with sends].
  intros m Hc.
  apply compose_message_inv in Hc.
  destruct Hc as (hp & Hh & _ & Hhd & tp & Htp & Hp).
  unfold get_header. rewrite Hhd. split; [reflexivity |].
  split; [reflexivity |].
  rewrite Hp. vm_compute in Hh. vm_compute in Htp.
  injection Hh as <-. injection Htp as <-. reflexivity.
Qed.

Lemma sends_only_success_email to_email username :
  sends_only
    (fun m =>
       exists template html,
         get_template E "password_reset_success.html" = inr template
         /\ template [("username", username)] = inr html
         /\ compose_message E (email_service cfg) to_email
              (PStr password_reset_success_subject) (PStr html)
              (PStr (password_reset_success_text E username))
            = inr m)
    (send_password_reset_success_email E (email_service cfg) to_email username).
Proof.
  intros w.
  cbv [send_password_reset_success_email render_template bind lift].
  destruct (get_template E "password_reset_success.html") as [e | template]
    eqn:Ht.
  { exists []. simpl. rewrite app_nil_r. auto. }
  destruct (template [("username", username)]) as [e | html] eqn:Hr.
  { exists []. simpl. rewrite app_nil_r. auto. }
  destruct (sends_only_composed (email_service cfg) to_email
              (PStr password_reset_success_subject) (PStr html)
              (PStr (password_reset_success_text E username)) w)
    as (l & Hl & Hf).
  exists l. split; [exact Hl |].
  eapply Forall_impl; [| exact Hf].
  intros m Hm. exists template, html. auto.
Qed.

(** X14. The confirmation email: every message the reset-success route
    hands to the transmitter is addressed to the body's [email], has the
    fixed subject "Password Reset Successful - Computer Networks Program",
    and has two parts: the plain text that greets the body's [username], then
    what [password_reset_success.html] rendered with [username] alone. *)
Theorem send_reset_success_sends_the_confirmation
        (d : list (string * pyval)) (w : world) :
  let email := dict_get d "email" PNone in
  let username := dict_get d "username" PNone in
  Forall
    (fun m =>
       get_header m "To" = Some email
       /\ get_header m "Subject"
          = Some (PStr "Password Reset Successful - Computer Networks Program")
       /\ exists template html,
           get_template E "password_reset_success.html" = inr template
           /\ template [("username", username)] = inr html
           /\ map text_subtype (payload m) = ["plain"; "html"]
           /\ map text_payload (payload m)
              = [password_reset_success_text E username; html])
    (new_sends w (snd (send_reset_success E cfg (PDict d) w))).
Proof.
  cbv zeta. apply sends_only_new_sends.
  apply sends_only_weaken
    with (P := fun m =>
                 exists template html,
                   get_template E "password_reset_success.html" = inr template
                   /\ template [("username", dict_get d "username" PNone)]
                      = inr html
                   /\ compose_message E (email_service cfg)
                        (dict_get d "email" PNone)
                        (PStr password_reset_success_subject) (PStr html)
                        (PStr (password_reset_success_text E
                                 (dict_get d "username" PNone)))
                      = inr m);
    [| pose proof sends_only_success_email;
       unfold send_reset_success; read_fields; auto 20 with sends].
  intros m (template & html & Ht & Hr & Hc).
  apply compose_message_contents in Hc. destruct Hc as (Hto & Hsub & Hp).
  split; [exact Hto |]. split; [exact Hsub |].
  exists template, html. split; [exact Ht |]. split; [exact Hr |].
  assert (Htruthy :
            truthy (PStr (password_reset_success_text E
                            (dict_get d "username" PNone))) = true)
    by reflexivity.
  rewrite Htruthy in Hp. destruct Hp as (t & Heq & Hs & Hpl).
  injection Heq as <-. auto.
Qed.

(** X15. The link that is mailed carries the token that is returned: when
    the password-reset route answers 200 with token [t], it handed over
    exactly one message, addressed to the body's [email], with the fixed
    reset subject, whose plain text is the reset text for the reset URL built
    from [t] and whose HTML is what [password_reset.html] rendered for that
    same URL. *)
Theorem send_password_reset_mails_the_token_it_returns
        (d : list (string * pyval)) (w w' : world) (resp : response) :
  send_password_reset E cfg (PDict d) w = (inr resp, w') ->
  status resp = 200%Z ->
  let email := dict_get d "email" PNone in
  let username := dict_get d "username" PNone in
  let display_name := py_or (dict_get d "user_name" PNone) username in
  exists t msg template html,
    let reset_url :=
      PStr (PASSWORD_RESET_URL_BASE cfg ++ "?token=" ++ t ++ "&username="
              ++ py_str E username) in
    dict_get (body resp) "token" PNone = PStr t
    /\ new_sends w w' = [msg]
    /\ get_header msg "To" = Some email
    /\ get_header msg "Subject"
       = Some (PStr "Password Reset - Computer Networks Program")
    /\ get_template E "password_reset.html" = inr template
    /\ template [("user_name", display_name); ("username", username);
                 ("reset_url", reset_url); ("expiration_minutes", PInt 60)]
       = inr html
    /\ map text_subtype (payload msg) = ["plain"; "html"]
    /\ map text_payload (payload msg)
       = [password_reset_text E display_name reset_url; html].
Proof.
  intros Hrun Hst. cbv zeta.
  cbv [send_password_reset try_except bind lift py_get ret] in Hrun.
  destruct (truthy (dict_get d "email" PNone));
    [| injection Hrun as <- _; discriminate Hst].
  destruct (truthy (dict_get d "username" PNone));
    [| injection Hrun as <- _; discriminate Hst].
  cbn [negb orb] in Hrun. rewrite generate_reset_token_run in Hrun.
  set (t := Secrets.encode_token _) in Hrun.
  set (w1 := mkWorld (stdout w) (smtp_log w) (entropy_used w + 32)) in Hrun.
  cbv [send_password_reset_email render_template bind lift] in Hrun.
  destruct (get_template E "password_reset.html") as [e | template] eqn:Htpl;
    [cbv [print] in Hrun; injection Hrun as <- _; discriminate Hst |].
  destruct (template _) as [e | html] eqn:Hren;
    [cbv [print] in Hrun; injection Hrun as <- _; discriminate Hst |].
  match type of Hrun with
  | context [send_email E ?svc ?a ?b ?c ?x w1] =>
      destruct (send_email_outcome E svc a b c x w1)
        as (l & _ & _
            & [(msg & Hsend & Hc & ->)
              | [(e & Hsend) | (e & e' & _ & _ & Hsend)]])
  end;
    rewrite Hsend in Hrun;
    try (cbv [print] in Hrun; injection Hrun as <- _; discriminate Hst).
  injection Hrun as <- <-.
  apply compose_message_contents in Hc. destruct Hc as (Hto & Hsub & Hp).
  cbn [truthy] in Hp.
  exists t, msg, template, html.
  split; [reflexivity |].
  split; [unfold new_sends; simpl; rewrite sent_messages_app, skipn_app,
            skipn_all, Nat.sub_diag; reflexivity |].
  split; [exact Hto |]. split; [exact Hsub |].
  split; [reflexivity |]. split; [exact Hren |].
  match type of Hp with
  | if ?c then _ else _ => assert (Hc' : c = true) by reflexivity;
                           rewrite Hc' in Hp
  end.
  destruct Hp as (txt & Heq & Hs & Hpl). injection Heq as <-. auto.
Qed.

End RouteMessages.

(** ** Tokens of successive requests *)

Section SuccessiveTokens.
Variable E : Env.

(** X16. Two tokens generated one after the other are built from
    neighbouring, disjoint blocks of 32 bytes of the entropy stream: no byte
    is used twice, and the two tokens are equal only if the two blocks are. *)
Theorem successive_tokens_are_built_from_disjoint_entropy (w : world) :
  let first := generate_reset_token E w in
  let second := generate_reset_token E (snd first) in
  let block1 := map (os_entropy E) (seq (entropy_used w) 32) in
  let block2 := map (os_entropy E) (seq (entropy_used w + 32) 32) in
  fst first = inr (Secrets.encode_token block1)
  /\ fst second = inr (Secrets.encode_token block2)
  /\ entropy_used (snd second) = entropy_used w + 64
  /\ (fst first = fst second <-> block1 = block2).
Proof.
  cbv zeta. rewrite !generate_reset_token_run. cbn [fst snd entropy_used].
  split; [reflexivity |]. split; [reflexivity |]. split; [lia |].
  split.
  - intros H. injection H as H. apply encode_token_inj; [| exact H].
    rewrite !length_map, !length_seq. reflexivity.
  - intros ->. reflexivity.
Qed.

End SuccessiveTokens.

(** ** The configuration the service runs with *)

Section LoadedConfiguration.
Variable environ : string -> option string.
Variable py_int : string -> result Z.
Variable E : Env.

(** X17. The service runs with what the environment holds, and credentials
    that are not set do not stop it.  When [Config] loads, which only the
    [int] of [MAIL_PORT] can prevent, every request connects to the
    environment's [MAIL_SERVER] (by default [smtp.gmail.com]) on the port
    [int] returned, logs in with the environment's [ADMIN_EMAIL] and
    [ADMIN_PASSWORD], [None] where one is not set, and sends its messages
    with that [ADMIN_EMAIL], or [None], as [From]. *)
Theorem requests_use_the_environment_even_without_credentials
        (cfg : Config) (r : route) (data : pyval) (w : world) :
  load_Config environ py_int = inr cfg ->
  exists l,
    smtp_log (snd (dispatch E cfg r data w)) = smtp_log w ++ l
    /\ Forall
         (fun ev =>
            match ev with
            | EvConnect host port =>
                host = environ_get environ "MAIL_SERVER" "smtp.gmail.com"
                /\ py_int (environ_get environ "MAIL_PORT" "465") = inr port
            | EvLogin user password =>
                user = of_environ (environ "ADMIN_EMAIL")
                /\ password = of_environ (environ "ADMIN_PASSWORD")
            | EvSendMessage msg =>
                get_header msg "From" = Some (of_environ (environ "ADMIN_EMAIL"))
            | EvQuit => True
            end)
         l.
Proof.
  unfold load_Config. intros Hload.
  destruct (py_int (environ_get environ "MAIL_PORT" "465")) as [e | port]
    eqn:Hport; [discriminate Hload |].
  injection Hload as <-.
  set (cfg := mkConfig _ _ _ _ _).
  destruct (dispatch_answered E cfg r data w) as (resp & w' & Hrun & Ha).
  destruct (sends_only_dispatch E cfg r data w) as (l' & Hl' & Hfrom).
  rewrite Hrun in *. simpl in *.
  assert (Hsession : exists l, smtp_log w' = smtp_log w ++ l
                               /\ session (email_service cfg) l).
  { destruct Ha as [Hr | msg Hr Hd | e w' out drawn Hr Hd Hg Hl
                    | resp w' to e l drawn Hf Hd Hg Hs
                    | resp w' t to msg drawn Hs Hd Hg Ht
                    | e e' w' subject html text out l drawn
                        Hr Hd Hfirst Hprint Hg Hl Hs].
    - exists []. rewrite app_nil_r. split; [reflexivity | constructor].
    - exists []. rewrite app_nil_r. split; [reflexivity | constructor].
    - exists []. destruct Hg as (_ & Hlog & _). split; [exact Hlog | constructor].
    - exists l. destruct Hg as (_ & Hlog & _). auto.
    - eexists. destruct Hg as (_ & Hlog & _). split; [exact Hlog | constructor].
    - exists l. destruct Hg as (_ & Hlog & _). auto. }
  destruct Hsession as (l & Hl & Hs).
  assert (l' = l) by (rewrite Hl in Hl'; apply app_inv_head in Hl'; auto).
  subst l'. exists l. split; [exact Hl |].
  destruct Hs as [| | | msg]; repeat constructor; auto.
  simpl in Hfrom. inversion Hfrom as [| m ms Hm _]; subst.
  destruct Hm as (subject & to_email & Hh).
  unfold get_header. rewrite Hh. reflexivity.
Qed.

End LoadedConfiguration.

(** X17 with nothing set in the environment: the default server and port,
    and a login with [None] and [None]. *)
Lemma requests_use_the_environment_even_without_credentials_witness :
  load_Config DemoConfig.environ DemoConfig.py_int = inr DemoConfig.cfg
  /\ smtp_log (snd (dispatch Demo.env DemoConfig.cfg POST_test (PDict [])
                      Demo.world0))
     = [EvConnect "smtp.gmail.com" 465; EvLogin PNone PNone;
        EvSendMessage
          (mkMIMEMultipart "alternative"
             [("Content-Type", PStr "multipart/alternative");
              ("MIME-Version", PStr "1.0");
              ("Subject", PStr "Test Email - Computer Networks Program");
              ("From", PNone); ("To", PStr "test@example.com")]
             [mkMIMEText "plain" "us-ascii"
                ("Test Email" ++ nl ++ nl
                   ++ "This is a test email from the email service.");
              mkMIMEText "html" "us-ascii"
                "<h1>Test Email</h1><p>This is a test email from the email service.</p>"]);
        EvQuit]
  /\ exists l,
      smtp_log (snd (dispatch Demo.env DemoConfig.cfg POST_test (PDict [])
                       Demo.world0))
      = smtp_log Demo.world0 ++ l
      /\ Forall
           (fun ev =>
              match ev with
              | EvConnect host port =>
                  host = environ_get DemoConfig.environ "MAIL_SERVER"
                                     "smtp.gmail.com"
                  /\ DemoConfig.py_int
                       (environ_get DemoConfig.environ "MAIL_PORT" "465")
                     = inr port
              | EvLogin user password =>
                  user = of_environ (DemoConfig.environ "ADMIN_EMAIL")
                  /\ password = of_environ (DemoConfig.environ "ADMIN_PASSWORD")
              | EvSendMessage msg =>
                  get_header msg "From"
                  = Some (of_environ (DemoConfig.environ "ADMIN_EMAIL"))
              | EvQuit => True
              end)
           l.
Proof.
  split; [reflexivity |]. split; [reflexivity |].
  apply (requests_use_the_environment_even_without_credentials
           DemoConfig.environ DemoConfig.py_int Demo.env DemoConfig.cfg
           POST_test (PDict []) Demo.world0).
  reflexivity.
Defined.

(** ** When the custom-email route answers 400 *)

Section CustomEmailValidation.
Variable E : Env.
Variable cfg : Config.

Lemma py_all_of_falsy (v : pyval) : truthy v = false -> py_all v <> inr false.
Proof.
  destruct v as [| b | n | s | l | d]; simpl; try discriminate.
  - destruct l; [discriminate | intros H; discriminate H].
  - destruct d; [discriminate | intros H; discriminate H].
Qed.

(** The one value [all] is applied to is not truthy unless all three fields
    are, and then it is the third. *)
Lemma py_all_and_chain_false (a b c : pyval) :
  py_all (py_and (py_and a b) c) = inr false <->
  truthy a = true /\ truthy b = true
  /\ ((exists l, c = PList l /\ forallb truthy l = false)
      \/ (exists kv,
             c = PDict kv
             /\ forallb (fun p => truthy (PStr (fst p))) kv = false)).
Proof.
  unfold py_and. split.
  - destruct (truthy a) eqn:Ha; cbv iota.
    + destruct (truthy b) eqn:Hb; cbv iota.
      * intros H. split; [reflexivity |]. split; [reflexivity |].
        destruct c as [| x | n | s | l | kv]; cbn [py_all] in H;
          try discriminate H; injection H as H.
        -- left. exists l. split; [reflexivity | exact H].
        -- right. exists kv. split; [reflexivity | exact H].
      * intros H. exfalso. exact (py_all_of_falsy b Hb H).
    + rewrite Ha. cbv iota. intros H. exfalso. exact (py_all_of_falsy a Ha H).
  - intros (Ha & Hb & [(l & -> & Hl) | (kv & -> & Hkv)]);
      rewrite Ha; cbv iota; rewrite Hb; cbv iota; cbn [py_all];
      f_equal; assumption.
Qed.

(** X18. The custom-email route answers 400 in one case only: [to_email]
    and [subject] are truthy and [html_content] is a list holding a falsy
    element or a dict holding an empty key.  In particular a body whose
    fields are missing, empty or all strs is never answered 400. *)
Theorem send_custom_email_answers_400_only_for_a_container_html
        (d : list (string * pyval)) (w : world) :
  exists resp w',
    send_custom_email E cfg (PDict d) w = (inr resp, w')
    /\ (status resp = 400%Z <->
        truthy (dict_get d "to_email" PNone) = true
        /\ truthy (dict_get d "subject" PNone) = true
        /\ ((exists l,
                dict_get d "html_content" PNone = PList l
                /\ forallb truthy l = false)
            \/ (exists kv,
                   dict_get d "html_content" PNone = PDict kv
                   /\ forallb (fun p => truthy (PStr (fst p))) kv = false))).
Proof.
  assert (H : exists resp w',
             send_custom_email E cfg (PDict d) w = (inr resp, w')
             /\ (status resp = 400%Z <->
                 py_all (py_and (py_and (dict_get d "to_email" PNone)
                                        (dict_get d "subject" PNone))
                                (dict_get d "html_content" PNone))
                 = inr false)).
  { cbv [send_custom_email try_except bind lift py_get ret].
    destruct (py_all _) as [e | complete].
    { do 2 eexists. split; [reflexivity |]. split; discriminate. }
    destruct complete; cbn [negb].
    2:{ do 2 eexists. split; [reflexivity |]. split; reflexivity. }
    match goal with
    | |- context [send_email E ?svc ?a ?b ?c ?x w] =>
        destruct (send_email_outcome E svc a b c x w)
          as (l & _ & _
              & [(msg & Hrun & _) | [(e & Hrun) | (e & e' & _ & _ & Hrun)]])
    end;
      rewrite Hrun; do 2 eexists; (split; [reflexivity |]); split; discriminate. }
  destruct H as (resp & w' & Hrun & Hiff).
  exists resp, w'. split; [exact Hrun |].
  rewrite Hiff. apply py_all_and_chain_false.
Qed.

End CustomEmailValidation.

(** ** The properties above, on runs *)

(** X5 on the test route with a list as body. *)
Lemma body_that_is_not_an_object_is_answered_500_witness :
  POST_test <> GET_health
  /\ is_dict (PList []) = false
  /\ fst (dispatch Demo.env Demo.cfg POST_test (PList []) Demo.world0)
     = inr ([("error", PStr "'list' object has no attribute 'get'")], 500%Z)
  /\ smtp_log (snd (dispatch Demo.env Demo.cfg POST_test (PList []) Demo.world0))
     = smtp_log Demo.world0
  /\ entropy_used
       (snd (dispatch Demo.env Demo.cfg POST_test (PList []) Demo.world0))
     = entropy_used Demo.world0.
Proof.
  split; [discriminate |]. split; [reflexivity |].
  apply (body_that_is_not_an_object_is_answered_500
           Demo.env Demo.cfg POST_test (PList []) Demo.world0);
    [discriminate | reflexivity].
Defined.

(** X7 on a password-reset request whose [email] is empty. *)
Lemma answer_400_leaves_the_world_unchanged_witness :
  fst (dispatch Demo.env Demo.cfg POST_send_password_reset
         (PDict [("email", PStr ""); ("username", PStr "jdoe")]) Demo.world0)
  = inr ([("error", PStr "email and username are required")], 400%Z)
  /\ snd (dispatch Demo.env Demo.cfg POST_send_password_reset
            (PDict [("email", PStr ""); ("username", PStr "jdoe")]) Demo.world0)
     = Demo.world0.
Proof.
  split; [reflexivity |].
  apply (answer_400_leaves_the_world_unchanged
           Demo.env Demo.cfg POST_send_password_reset
           (PDict [("email", PStr ""); ("username", PStr "jdoe")]) Demo.world0
           _ ([("error", PStr "email and username are required")], 400%Z));
    reflexivity.
Defined.

(** X8 on the password-reset request of the specification's scenario. *)
Lemma post_answered_200_handed_exactly_one_message_witness :
  dispatch Demo.env Demo.cfg POST_send_password_reset DemoReset.request
    Demo.world0
  = (inr DemoReset.ok_response, DemoReset.world_after)
  /\ status DemoReset.ok_response = 200%Z
  /\ exists msg to_email,
      new_sends Demo.world0 DemoReset.world_after = [msg]
      /\ smtp_log DemoReset.world_after
         = smtp_log Demo.world0
           ++ [EvConnect (MAIL_SERVER Demo.cfg) (MAIL_PORT Demo.cfg);
               EvLogin (of_environ (ADMIN_EMAIL Demo.cfg))
                       (of_environ (ADMIN_PASSWORD Demo.cfg));
               EvSendMessage msg; EvQuit]
      /\ stdout DemoReset.world_after
         = stdout Demo.world0
           ++ [("Email sent successfully to " ++ py_str Demo.env to_email)%string].
Proof.
  assert (Hrun : dispatch Demo.env Demo.cfg POST_send_password_reset
                   DemoReset.request Demo.world0
                 = (inr DemoReset.ok_response, DemoReset.world_after))
    by (vm_compute; reflexivity).
  split; [exact Hrun |]. split; [reflexivity |].
  apply (post_answered_200_handed_exactly_one_message
           Demo.env Demo.cfg _ _ _ _ _ Hrun); [reflexivity | discriminate].
Defined.


(** X15 on the password-reset request of the specification's scenario. *)
Lemma send_password_reset_mails_the_token_it_returns_witness :
  send_password_reset Demo.env Demo.cfg DemoReset.request Demo.world0
  = (inr DemoReset.ok_response, DemoReset.world_after)
  /\ status DemoReset.ok_response = 200%Z
  /\ dict_get (body DemoReset.ok_response) "token" PNone = PStr DemoReset.token
  /\ exists msg,
      new_sends Demo.world0 DemoReset.world_after = [msg]
      /\ get_header msg "To" = Some (PStr "a@b.com")
      /\ map text_payload (payload msg)
         = [password_reset_text Demo.env (PStr "jdoe")
              (PStr ("https://yourapp.com/reset?token=" ++ DemoReset.token
                       ++ "&username=jdoe"));
            ("<p>Hello jdoe</p><a href='https://yourapp.com/reset?token="
               ++ DemoReset.token ++ "&username=jdoe'>Reset</a>")%string].
Proof.
  assert (Hrun : send_password_reset Demo.env Demo.cfg DemoReset.request
                   Demo.world0
                 = (inr DemoReset.ok_response, DemoReset.world_after))
    by (vm_compute; reflexivity).
  split; [exact Hrun |]. split; [reflexivity |]. split; [reflexivity |].
  destruct (send_password_reset_mails_the_token_it_returns
              Demo.env Demo.cfg _ _ _ _ Hrun eq_refl)
    as (t & msg & template & html & Htok & Hnew & Hto & _ & Htpl & Hren & _ & Hp).
  exists msg. split; [exact Hnew |]. split; [exact Hto |].
  injection Htok as <-. injection Htpl as <-. injection Hren as <-.
  rewrite Hp. reflexivity.
Defined.
